(** * Item controller of the inventory application

    A shallow embedding of [controllers/itemController.js]: the item write
    pipeline (create, update, delete) together with the express-validator
    chains that guard it, and the properties of the specification that
    concern them.

    Conventions.
    - A JavaScript string is modelled by a Rocq [string] whose characters are
      the code units of the JavaScript string; the model covers the strings
      whose code units are below 256.
    - [req.body] is a JavaScript object used as a map from field names to
      strings: a [gmap string string].  A field that is absent ([undefined])
      has no binding.
    - The collections of the catalog store are kept in a [World]; handlers
      run in a small state monad over the [World] and the calls made on
      [res]. *)

From Stdlib Require Import String Ascii Arith Bool List Lia.
From stdpp Require Import base option list gmap strings sorting.

Local Open Scope string_scope.
Local Open Scope list_scope.
Local Open Scope stdpp_scope.

(** ** Strings: the validator.js functions used by the chains *)

Module Validator.

(** The characters below 256 that the JavaScript regular expression class
    [\s] matches: tab, line feed, vertical tab, form feed, carriage return,
    space and no-break space. *)
Definition isWhitespace (c : ascii) : bool :=
  let n := nat_of_ascii c in
  (Nat.leb 9 n && Nat.leb n 13) || Nat.eqb n 32 || Nat.eqb n 160.

(** [ltrim(str)]: [str.replace(/^\s+/g, '')]. *)
Fixpoint ltrim (s : string) : string :=
  match s with
  | EmptyString => EmptyString
  | String c rest => if isWhitespace c then ltrim rest else s
  end.

(** [rtrim(str)]: drops the whitespace at the end of [str]. *)
Fixpoint rtrim (s : string) : string :=
  match s with
  | EmptyString => EmptyString
  | String c rest =>
      match rtrim rest with
      | EmptyString => if isWhitespace c then EmptyString else String c EmptyString
      | r => String c r
      end
  end.

(** [trim(str)] is [rtrim(ltrim(str))]. *)
Definition trim (s : string) : string := rtrim (ltrim s).

(** [isLength(str, { min })]: no [max] is given by the controller.  On
    strings of code units below 256 the length that validator.js compares
    is the number of code units. *)
Definition isLength (min : nat) (s : string) : bool :=
  Nat.leb min (String.length s).

(** The replacement of one character by [escape]. *)
Definition escapeChar (c : ascii) : string :=
  if Ascii.eqb c "&" then "&amp;"
  else if Ascii.eqb c "034" then "&quot;"
  else if Ascii.eqb c "'" then "&#x27;"
  else if Ascii.eqb c "<" then "&lt;"
  else if Ascii.eqb c ">" then "&gt;"
  else if Ascii.eqb c "/" then "&#x2F;"
  else if Ascii.eqb c "\" then "&#x5C;"
  else if Ascii.eqb c "`" then "&#96;"
  else String c EmptyString.

(** [escape(str)]: the chain of [replace] calls acts on each character
    independently. *)
Fixpoint escape (s : string) : string :=
  match s with
  | EmptyString => EmptyString
  | String c rest => escapeChar c +:+ escape rest
  end.

End Validator.

(** ** Requests *)

(** [req.file], as multer leaves it. *)
Record File := {
  mimetype : string;
  buffer : string;
}.

Record Request := {
  params_id : string;              (* req.params.id *)
  body : gmap string string;       (* req.body *)
  file : option File;              (* req.file *)
}.

Definition set_body (b : gmap string string) (req : Request) : Request :=
  {| params_id := params_id req; body := b; file := file req |}.

(** ** express-validator chains *)

Module Chain.

(** One entry of the array returned by [errors.array()]: the field and the
    message. *)
Record ValidationError := {
  path : string;
  msg : string;
}.

(** A step of a chain.  A standard validator or sanitizer sees the value of
    the field as a string ([undefined] is turned into the empty string); a
    custom validator sees the value as it is and the request. *)
Inductive Step :=
| Sanitizer (f : string -> string)
| StdValidator (p : string -> bool) (message : option string)
| CustomValidator (p : option string -> Request -> bool) (message : option string).

Record ValidationChain := {
  field : string;
  message : option string;
  steps : list Step;
}.

(** [body(field, message)] and [check(field)]. *)
Definition body_ (f m : string) : ValidationChain :=
  {| field := f; message := Some m; steps := [] |}.
Definition check (f : string) : ValidationChain :=
  {| field := f; message := None; steps := [] |}.

Definition add_step (st : Step) (c : ValidationChain) : ValidationChain :=
  {| field := field c; message := message c; steps := steps c ++ [st] |}.

Definition trim : ValidationChain -> ValidationChain :=
  add_step (Sanitizer Validator.trim).
Definition escape : ValidationChain -> ValidationChain :=
  add_step (Sanitizer Validator.escape).
Definition isLength (min : nat) : ValidationChain -> ValidationChain :=
  add_step (StdValidator (Validator.isLength min) None).
Definition custom (p : option string -> Request -> bool)
  : ValidationChain -> ValidationChain :=
  add_step (CustomValidator p None).

(** [.withMessage(m)] sets the message of the last validator of the
    chain. *)
Definition set_message (m : string) (st : Step) : Step :=
  match st with
  | Sanitizer f => Sanitizer f
  | StdValidator p _ => StdValidator p (Some m)
  | CustomValidator p _ => CustomValidator p (Some m)
  end.

Fixpoint set_last_message (m : string) (l : list Step) : list Step :=
  match l with
  | [] => []
  | [st] => [set_message m st]
  | st :: rest => st :: set_last_message m rest
  end.

Definition withMessage (m : string) (c : ValidationChain) : ValidationChain :=
  {| field := field c; message := message c;
     steps := set_last_message m (steps c) |}.

(** The message of a failed validator: its own, else the one of the chain,
    else the default of the library. *)
Definition error_of (c : ValidationChain) (own : option string) : ValidationError :=
  {| path := field c;
     msg := default (default "Invalid value" (message c)) own |}.

Definition toString (v : option string) : string := default "" v.

(** Runs one step on the request: a sanitizer writes the new value back
    into [req.body]; a validator that fails adds its error.  No validator
    stops the chain. *)
Definition run_step (c : ValidationChain) (st : Step)
    (acc : Request * list ValidationError) : Request * list ValidationError :=
  let '(req, errs) := acc in
  let value := body req !! field c in
  match st with
  | Sanitizer f =>
      (set_body (<[field c := f (toString value)]> (body req)) req, errs)
  | StdValidator p m =>
      if p (toString value) then acc else (req, errs ++ [error_of c m])
  | CustomValidator p m =>
      if p value req then acc else (req, errs ++ [error_of c m])
  end.

Definition run_chain (c : ValidationChain)
    (acc : Request * list ValidationError) : Request * list ValidationError :=
  fold_left (fun a st => run_step c st a) (steps c) acc.

(** The chains of a route run in order, each on the request as the
    previous ones left it; [validationResult(req)] is the second
    component. *)
Definition run (cs : list ValidationChain) (req : Request)
  : Request * list ValidationError :=
  fold_left (fun a c => run_chain c a) cs (req, []).

End Chain.

Notation "c |> f" := (f c) (at level 45, left associativity, only parsing).

(** ** The catalog store *)

(** A document of the [Item] collection.  [item_slot] is the reference to a
    [Slot]; [item_imgUrl] is [None] as long as the field is not set. *)
Record Item := {
  item_id : string;
  item_name : string;
  item_description : string;
  item_quality : string;
  item_slot : string;
  item_imgUrl : option string;
}.

Record Slot := {
  slot_id : string;
  slot_name : string;
}.

Record ItemInstance := {
  instance_id : string;
  instance_item : string;          (* reference to an Item *)
  instance_seller : string;        (* reference to a Seller *)
  num_of_stocks : nat;
}.

(** The options object handed to [cloudinary.uploader.upload]; an option
    that the call does not give is [None]. *)
Record UploadOptions := {
  resource_type : string;
  folder : string;
  public_id : option string;
  overwrite : option bool;
  invalidate : option bool;
}.

(** The state outside of the handlers: the three collections the item
    controller reads or writes, and the uploads received by the image
    host, latest last. *)
Record World := {
  items : gmap string Item;
  itemInstances : list ItemInstance;
  slots : list Slot;
  uploads : list (string * UploadOptions);
}.

(** Documents after [populate]: the reference is replaced by the document it
    names, or by null when there is none. *)
Record PopulatedItem := {
  pi_doc : Item;
  pi_slot : option Slot;
}.

Record PopulatedInstance := {
  pin_doc : ItemInstance;
  pin_item : option Item;
}.

(** ** Responses *)

(** The values handed to a view. *)
Inductive Local :=
| LString (s : string)
| LField (v : option string)                 (* a field of req.body, as it is *)
| LNewItem (i : Item)                        (* a document built by the handler *)
| LItem (i : option Item)                    (* a query result: document or null *)
| LPopulatedItem (i : option PopulatedItem)
| LSlots (l : list Slot)
| LInstances (l : list PopulatedInstance)
| LErrors (l : list Chain.ValidationError).

(** A call on [res].  The locals of [res.render] are kept in the order of
    the object literal. *)
Inductive ResCall :=
| Redirect (url : string)
| Render (view : string) (locals : list (string * Local)).

(** ** The handler monad *)

Record HState := {
  world : World;
  sent : list ResCall;             (* the calls made on res, latest last *)
}.

Definition Handler (A : Type) : Type := HState -> A * HState.

Global Instance handler_ret : MRet Handler := fun A x st => (x, st).
Global Instance handler_bind : MBind Handler :=
  fun A B f m st => let '(x, st') := m st in f x st'.

Definition get_world : Handler World := fun st => (world st, st).
Definition put_world (w : World) : Handler unit :=
  fun st => (tt, {| world := w; sent := sent st |}).
Definition send (c : ResCall) : Handler unit :=
  fun st => (tt, {| world := world st; sent := sent st ++ [c] |}).

(** Runs a handler on a store, from a response on which nothing was called:
    the store it leaves and the calls it made on [res]. *)
Definition run_handler (h : Handler unit) (w : World) : World * list ResCall :=
  let st := snd (h {| world := w; sent := [] |}) in (world st, sent st).

Definition res_render (view : string) (locals : list (string * Local)) : Handler unit :=
  send (Render view locals).
Definition res_redirect (url : string) : Handler unit :=
  send (Redirect url).

(** *** Queries *)

Module ItemModel.

(** [Item.findById(id).exec()]. *)
Definition findById (id : string) : Handler (option Item) :=
  w ← get_world; mret (items w !! id).

Definition populate_slot (w : World) (i : Item) : PopulatedItem :=
  {| pi_doc := i;
     pi_slot := List.find (fun s => bool_decide (slot_id s = item_slot i)) (slots w) |}.

(** [Item.findById(id).populate("slot").exec()]. *)
Definition findById_populate_slot (id : string) : Handler (option PopulatedItem) :=
  w ← get_world; mret (populate_slot w <$> items w !! id).

(** [item.save()] for a document built by [new Item]. *)
Definition save (i : Item) : Handler unit :=
  w ← get_world;
  put_world {| items := <[item_id i := i]> (items w);
               itemInstances := itemInstances w;
               slots := slots w;
               uploads := uploads w |}.

(** [Item.findByIdAndDelete(id)]; an [undefined] id names no document. *)
Definition findByIdAndDelete (id : option string) : Handler unit :=
  w ← get_world;
  put_world {| items := from_option (fun k => delete k (items w)) (items w) id;
               itemInstances := itemInstances w;
               slots := slots w;
               uploads := uploads w |}.

(** The fields of [old] after an update by the document [new]: the fields
    that [new] has set replace those of [old]; the identity stays. *)
Definition updated (old new : Item) : Item :=
  {| item_id := item_id old;
     item_name := item_name new;
     item_description := item_description new;
     item_quality := item_quality new;
     item_slot := item_slot new;
     item_imgUrl := match item_imgUrl new with
                    | Some u => Some u
                    | None => item_imgUrl old
                    end |}.

(** [Item.findByIdAndUpdate(id, item, {})]: no document is created when
    none has this id. *)
Definition findByIdAndUpdate (id : string) (new : Item) : Handler unit :=
  w ← get_world;
  put_world {| items := alter (fun old => updated old new) id (items w);
               itemInstances := itemInstances w;
               slots := slots w;
               uploads := uploads w |}.

End ItemModel.

Module ItemInstanceModel.

Definition populate_item (w : World) (i : ItemInstance) : PopulatedInstance :=
  {| pin_doc := i; pin_item := items w !! instance_item i |}.

(** [ItemInstance.find({ item: id }).populate("item").exec()]. *)
Definition find_by_item_populate_item (id : string) : Handler (list PopulatedInstance) :=
  w ← get_world;
  mret (populate_item w <$>
          List.filter (fun i => bool_decide (instance_item i = id)) (itemInstances w)).

End ItemInstanceModel.

Module SlotModel.

(** [Slot.find({}).exec()]. *)
Definition find_all : Handler (list Slot) :=
  w ← get_world; mret (slots w).

Definition name_le (a b : Slot) : Prop := String.le (slot_name a) (slot_name b).

Global Instance name_le_dec : RelDecision name_le.
Proof. intros a b. unfold name_le. apply _. Defined.

(** [Slot.find({}).sort({ name: 1 }).exec()]. *)
Definition find_all_sort_name : Handler (list Slot) :=
  w ← get_world; mret (merge_sort name_le (slots w)).

End SlotModel.

(** ** The controller *)

Section Controller.

(** What the controller takes from outside of this file:
    [Buffer.from(b).toString("base64")], the [secure_url] that the image
    host answers to an upload (given the uploads it has received so far),
    and the virtual [url] of the Item model. *)
Variable base64 : string -> string.
Variable secure_url : list (string * UploadOptions) -> string -> UploadOptions -> string.
Variable item_url : Item -> string.

(** [cloudinary.uploader.upload(dataURI, options)], reduced to the
    [secure_url] of its answer. *)
Definition cloudinary_upload (dataURI : string) (o : UploadOptions) : Handler string :=
  w ← get_world;
  put_world {| items := items w;
               itemInstances := itemInstances w;
               slots := slots w;
               uploads := uploads w ++ [(dataURI, o)] |};;
  mret (secure_url (uploads w) dataURI o).

Definition set_imgUrl (u : string) (i : Item) : Item :=
  {| item_id := item_id i;
     item_name := item_name i;
     item_description := item_description i;
     item_quality := item_quality i;
     item_slot := item_slot i;
     item_imgUrl := Some u |}.

(** The custom validator of the file: only an image may be uploaded. *)
Definition itemImage_validator (value : option string) (req : Request) : bool :=
  match file req with
  | None => true
  | Some f => if String.prefix "image/" (mimetype f) then true else false
  end.

(** [req.body.security_code != "123"]. *)
Definition wrong_security_code (req : Request) : bool :=
  bool_decide (body req !! "security_code" ≠ Some "123").

(** *** Create *)

Definition item_create_post_validators : list Chain.ValidationChain :=
  [ Chain.body_ "name" "Name must not be empty."
      |> Chain.trim |> Chain.isLength 1 |> Chain.escape;
    Chain.body_ "description" "Description must not be empty."
      |> Chain.trim |> Chain.isLength 3 |> Chain.escape;
    Chain.body_ "quality" "Quality must not be empty."
      |> Chain.trim |> Chain.isLength 1 |> Chain.escape;
    Chain.body_ "slot" "Slot must not be empty"
      |> Chain.trim |> Chain.isLength 1 |> Chain.escape;
    Chain.check "itemImage"
      |> Chain.custom itemImage_validator
      |> Chain.withMessage "Please submit a image file" ].

(** The last middleware of the route.  [errors] is
    [validationResult(req)]; [oid] is the identity that [new Item] gives
    to the document.  The chains have set the four fields of
    [req.body]. *)
Definition item_create_post_handler (oid : string) (req : Request)
    (errors : list Chain.ValidationError) : Handler unit :=
  let item :=
    {| item_id := oid;
       item_name := Chain.toString (body req !! "name");
       item_description := Chain.toString (body req !! "description");
       item_quality := Chain.toString (body req !! "quality");
       item_slot := Chain.toString (body req !! "slot");
       item_imgUrl := None |} in
  if negb (bool_decide (errors = [])) then
    allSlots ← SlotModel.find_all;
    res_render "item_form"
      [ ("title", LString "Create Item");
        ("slots", LSlots allSlots);
        ("item", LNewItem item);
        ("errors", LErrors errors) ]
  else
    item ← match file req with
           | Some f =>
               let b64 := base64 (buffer f) in
               let dataURI := "data:" +:+ mimetype f +:+ ";base64," +:+ b64 in
               uploadedImage ← cloudinary_upload dataURI
                 {| resource_type := "image";
                    folder := "wow_inventory";
                    public_id := None;
                    overwrite := None;
                    invalidate := None |};
               mret (set_imgUrl uploadedImage item)
           | None => mret (set_imgUrl "#" item)
           end;
    ItemModel.save item;;
    res_redirect (item_url item).

Definition item_create_post (oid : string) (req : Request) : Handler unit :=
  let '(req', errors) := Chain.run item_create_post_validators req in
  item_create_post_handler oid req' errors.

(** *** Delete *)

Definition item_delete_get (req : Request) : Handler unit :=
  item ← ItemModel.findById (params_id req);
  itemInstances ← ItemInstanceModel.find_by_item_populate_item (params_id req);
  (if bool_decide (item = None) then res_redirect "/catalog/items" else mret tt);;
  res_render "item_delete"
    [ ("title", LString "Delete Item");
      ("item", LItem item);
      ("itemInstances", LInstances itemInstances) ].

Definition item_delete_post (req : Request) : Handler unit :=
  item ← ItemModel.findById (params_id req);
  itemInstances ← ItemInstanceModel.find_by_item_populate_item (params_id req);
  if Nat.ltb 0 (length itemInstances) || wrong_security_code req then
    res_render "item_delete"
      [ ("title", LString "Delete Item");
        ("item", LItem item);
        ("itemInstances", LInstances itemInstances);
        ("code", LField (body req !! "security_code"));
        ("error", LString "Wrong security code.") ]
  else
    ItemModel.findByIdAndDelete (body req !! "itemid");;
    res_redirect "/catalog/items".

(** *** Update *)

Definition item_update_post_validators : list Chain.ValidationChain :=
  [ Chain.body_ "name" "Name must not be empty."
      |> Chain.trim |> Chain.isLength 1 |> Chain.escape;
    Chain.body_ "description" "Description must not be empty."
      |> Chain.trim |> Chain.isLength 3 |> Chain.escape;
    Chain.body_ "quality" "Quality must not be empty."
      |> Chain.trim |> Chain.isLength 1 |> Chain.escape;
    Chain.body_ "slot" "Slot must not be empty"
      |> Chain.trim |> Chain.isLength 1 |> Chain.escape;
    Chain.check "itemImage"
      |> Chain.custom itemImage_validator
      |> Chain.withMessage "Please submit a image file" ].

Definition item_update_post_handler (req : Request)
    (errors : list Chain.ValidationError) : Handler unit :=
  let item :=
    {| item_id := params_id req;
       item_name := Chain.toString (body req !! "name");
       item_description := Chain.toString (body req !! "description");
       item_quality := Chain.toString (body req !! "quality");
       item_slot := Chain.toString (body req !! "slot");
       item_imgUrl := None |} in
  if negb (bool_decide (errors = [])) || wrong_security_code req then
    stored ← ItemModel.findById_populate_slot (params_id req);
    slots ← SlotModel.find_all_sort_name;
    res_render "item_form"
      [ ("title", LString "Update Item");
        ("item", LPopulatedItem stored);
        ("slots", LSlots slots);
        ("errors", LErrors errors);
        ("code", LField (body req !! "security_code"));
        ("form_type", LString "update");
        ("error", LString (if wrong_security_code req
                           then "Wrong security code." else "")) ]
  else
    item ← match file req with
           | Some f =>
               let b64 := base64 (buffer f) in
               let dataURI := "data:" +:+ mimetype f +:+ ";base64," +:+ b64 in
               uploadedImage ← cloudinary_upload dataURI
                 {| resource_type := "image";
                    folder := "wow_inventory";
                    public_id := Some (item_id item);
                    overwrite := Some true;
                    invalidate := Some true |};
               mret (set_imgUrl uploadedImage item)
           | None => mret (set_imgUrl "#" item)
           end;
    ItemModel.findByIdAndUpdate (params_id req) item;;
    res_redirect (item_url item).

Definition item_update_post (req : Request) : Handler unit :=
  let '(req', errors) := Chain.run item_update_post_validators req in
  item_update_post_handler req' errors.

End Controller.

(** ** The specification's view of a request *)

(** The value of a form field as the validators see it. *)
Definition field_value (req : Request) (f : string) : string :=
  Chain.toString (body req !! f).

(** What the chains leave in a validated field: the trimmed and escaped
    value. *)
Definition sanitize (s : string) : string :=
  Validator.escape (Validator.trim s).

(** The request after the chains of a route: the four validated fields are
    sanitized, whatever the outcome of the validation. *)
Definition sanitized (req : Request) : Request :=
  set_body
    (<["slot" := sanitize (field_value req "slot")]>
       (<["quality" := sanitize (field_value req "quality")]>
          (<["description" := sanitize (field_value req "description")]>
             (<["name" := sanitize (field_value req "name")]> (body req)))))
    req.

(** The error of one rule of the Validation Stage, when it is violated. *)
Definition rule (violated : bool) (f m : string) : list Chain.ValidationError :=
  if violated then [ {| Chain.path := f; Chain.msg := m |} ] else [].

(** The file rule is violated by a file whose declared content type does not
    begin with [image/]; no file passes. *)
Definition file_rule_violated (req : Request) : bool :=
  match file req with
  | None => false
  | Some f => negb (String.prefix "image/" (mimetype f))
  end.

(** The Validation Stage in the words of the specification: each rule, on the
    trimmed value, gives its message when violated; the errors come in the
    order of the rules. *)
Definition validation_errors_spec (req : Request) : list Chain.ValidationError :=
  rule (Nat.ltb (String.length (Validator.trim (field_value req "name"))) 1)
       "name" "Name must not be empty."
  ++ rule (Nat.ltb (String.length (Validator.trim (field_value req "description"))) 3)
       "description" "Description must not be empty."
  ++ rule (Nat.ltb (String.length (Validator.trim (field_value req "quality"))) 1)
       "quality" "Quality must not be empty."
  ++ rule (Nat.ltb (String.length (Validator.trim (field_value req "slot"))) 1)
       "slot" "Slot must not be empty"
  ++ rule (file_rule_violated req)
       "itemImage" "Please submit a image file".

(** A request that violates none of the rules. *)
Definition spec_compliant (req : Request) : Prop :=
  1 <= String.length (Validator.trim (field_value req "name")) /\
  3 <= String.length (Validator.trim (field_value req "description")) /\
  1 <= String.length (Validator.trim (field_value req "quality")) /\
  1 <= String.length (Validator.trim (field_value req "slot")) /\
  (file req = None \/
   exists f, file req = Some f /\ String.prefix "image/" (mimetype f) = true).

(** The number of ItemInstance records that reference the item [id]. *)
Definition instance_count (w : World) (id : string) : nat :=
  length (List.filter (fun i => bool_decide (instance_item i = id)) (itemInstances w)).

(** The candidate Item of a create or update, from the sanitized fields. *)
Definition candidate (id : string) (req : Request) (img : option string) : Item :=
  {| item_id := id;
     item_name := sanitize (field_value req "name");
     item_description := sanitize (field_value req "description");
     item_quality := sanitize (field_value req "quality");
     item_slot := sanitize (field_value req "slot");
     item_imgUrl := img |}.

(** The data URI that the handlers build for an uploaded file. *)
Definition dataURI_of (base64 : string -> string) (f : File) : string :=
  "data:" +:+ mimetype f +:+ ";base64," +:+ base64 (buffer f).

(** ** A sample store and sample requests *)

Module Demo.

(** Stand-ins for what the controller takes from outside. *)
Definition base64 (s : string) : string := s.
Definition secure_url (received : list (string * UploadOptions))
    (dataURI : string) (o : UploadOptions) : string :=
  "https://res.cloudinary.com/demo/" +:+ folder o +:+ "/" +:+ default "new" (public_id o).
Definition item_url (i : Item) : string := "/catalog/item/" +:+ item_id i.

Definition sword : Item :=
  {| item_id := "i1"; item_name := "Sword"; item_description := "A sharp blade";
     item_quality := "Epic"; item_slot := "s1";
     item_imgUrl := Some "https://res.cloudinary.com/demo/wow_inventory/i1" |}.

Definition shield : Item :=
  {| item_id := "i2"; item_name := "Shield"; item_description := "A round shield";
     item_quality := "Rare"; item_slot := "s2"; item_imgUrl := Some "#" |}.

(** Two items; two instances reference the shield, none the sword. *)
Definition store : World :=
  {| items := <["i1" := sword]> (<["i2" := shield]> ∅);
     itemInstances :=
       [ {| instance_id := "n1"; instance_item := "i2";
            instance_seller := "p1"; num_of_stocks := 2 |};
         {| instance_id := "n2"; instance_item := "i2";
            instance_seller := "p2"; num_of_stocks := 0 |} ];
     slots := [ {| slot_id := "s1"; slot_name := "main hand" |};
                {| slot_id := "s2"; slot_name := "off hand" |} ];
     uploads := [] |}.

Definition form (l : list (string * string)) : gmap string string := list_to_map l.

(** A valid form without a file. *)
Definition valid_fields : list (string * string) :=
  [ ("name", "Sword"); ("description", "A sharp blade");
    ("quality", "Epic"); ("slot", "s1") ].

Definition create_valid : Request :=
  {| params_id := ""; body := form valid_fields; file := None |}.

(** The name is made of spaces only. *)
Definition create_no_name : Request :=
  {| params_id := "";
     body := form [ ("name", "  "); ("description", "ok ok");
                    ("quality", "Epic"); ("slot", "s1") ];
     file := None |}.

Definition update_valid : Request :=
  {| params_id := "i1";
     body := form (("security_code", "123") :: valid_fields);
     file := None |}.

Definition update_wrong_code : Request :=
  {| params_id := "i1";
     body := form (("security_code", "321") :: valid_fields);
     file := None |}.

(** Delete of the sword, which no instance references. *)
Definition delete_sword : Request :=
  {| params_id := "i1";
     body := form [ ("itemid", "i1"); ("security_code", "123") ];
     file := None |}.

(** Delete of the shield, which two instances reference. *)
Definition delete_shield : Request :=
  {| params_id := "i2";
     body := form [ ("itemid", "i2"); ("security_code", "123") ];
     file := None |}.

(** The route names the sword, the form names the shield. *)
Definition delete_mismatch : Request :=
  {| params_id := "i1";
     body := form [ ("itemid", "i2"); ("security_code", "123") ];
     file := None |}.

(** No item has this id. *)
Definition delete_unknown : Request :=
  {| params_id := "i9"; body := ∅; file := None |}.

End Demo.

(** ** The read handlers *)

(** Modelled from the spec: the Seller model ([models/seller.js]) is not
    among the sources; the specification gives a Seller an identity and no
    other field that this controller uses. *)
Record Seller := {
  seller_id : string;
}.

(** The error that a handler hands to [next]. *)
Record HttpError := {
  err_message : string;
  err_status : nat;
}.

(** An entry of the item list: the fields that the query selects, with the
    slot populated. *)
Record ListedItem := {
  li_id : string;
  li_name : string;
  li_quality : string;
  li_imgUrl : option string;
  li_slot : option Slot;
}.

(** An instance after [populate("seller")]. *)
Record SoldInstance := {
  si_doc : ItemInstance;
  si_seller : option Seller;
}.

(** The values handed to the views of the read handlers. *)
Inductive PageLocal :=
| PString (s : string)
| PNumber (n : nat)
| PListedItems (l : list ListedItem)
| PPopulatedItem (i : PopulatedItem)
| PSlots (l : list Slot)
| PSoldInstances (l : list SoldInstance).

(** What a read handler does with the request: it renders a view, or hands
    an error to [next].  The read handlers write nothing: they are functions
    of the store. *)
Inductive Answer :=
| Page (view : string) (locals : list (string * PageLocal))
| NextError (err : HttpError).

Section ReadHandlers.

(** The Seller collection, which the item controller only reads. *)
Variable sellers : gmap string Seller.

(** [index]: the five counts of the home page. *)
Definition index (w : World) : Answer :=
  let numItems := size (items w) in
  let numItemInstances := length (itemInstances w) in
  let numInStockItemInstances :=
    length (List.filter (fun i => Nat.ltb 0 (num_of_stocks i)) (itemInstances w)) in
  let numSellers := size sellers in
  let numSlots := length (slots w) in
  Page "index"
    [ ("title", PString "WoW Inventory Home");
      ("item_count", PNumber numItems);
      ("item_instance_count", PNumber numItemInstances);
      ("item_instance_stock_count", PNumber numInStockItemInstances);
      ("seller_count", PNumber numSellers);
      ("slot_count", PNumber numSlots) ].

Definition quality_le (a b : Item) : Prop := String.le (item_quality a) (item_quality b).

Global Instance quality_le_dec : RelDecision quality_le.
Proof. intros a b. unfold quality_le. apply _. Defined.

Definition listed (w : World) (i : Item) : ListedItem :=
  {| li_id := item_id i;
     li_name := item_name i;
     li_quality := item_quality i;
     li_imgUrl := item_imgUrl i;
     li_slot := List.find (fun s => bool_decide (slot_id s = item_slot i)) (slots w) |}.

(** [item_list]:
    [Item.find({}, "name quality imgUrl").sort({ quality: 1 }).populate("slot")].
    The query leaves open the order of the items of equal quality. *)
Definition item_list (w : World) : Answer :=
  let allItems := listed w <$> merge_sort quality_le (snd <$> map_to_list (items w)) in
  Page "item_list"
    [ ("title", PString "Item List");
      ("item_list", PListedItems allItems) ].

Definition populate_seller (i : ItemInstance) : SoldInstance :=
  {| si_doc := i; si_seller := sellers !! instance_seller i |}.

(** [item_detail]. *)
Definition item_detail (w : World) (req : Request) : Answer :=
  let item := ItemModel.populate_slot w <$> items w !! params_id req in
  let itemInstances :=
    populate_seller <$>
      List.filter (fun i => bool_decide (instance_item i = params_id req))
        (itemInstances w) in
  match item with
  | None => NextError {| err_message := "Item not found"; err_status := 404 |}
  | Some item =>
      Page "item_detail"
        [ ("title", PString "Item Detail");
          ("item", PPopulatedItem item);
          ("itemInstances", PSoldInstances itemInstances) ]
  end.

(** [item_create_get]. *)
Definition item_create_get (w : World) : Answer :=
  let allSlots := slots w in
  Page "item_form"
    [ ("title", PString "Create Item");
      ("slots", PSlots allSlots) ].

(** [item_update_get]. *)
Definition item_update_get (w : World) (req : Request) : Answer :=
  let item := ItemModel.populate_slot w <$> items w !! params_id req in
  let slots := merge_sort SlotModel.name_le (slots w) in
  match item with
  | None => NextError {| err_message := "Item not found"; err_status := 404 |}
  | Some item =>
      Page "item_form"
        [ ("title", PString "Update Item");
          ("item", PPopulatedItem item);
          ("slots", PSlots slots);
          ("form_type", PString "update") ]
  end.

End ReadHandlers.

(** ** Reading a response *)

(** The number that a page shows under a key. *)
Definition page_number (a : Answer) (key : string) : option nat :=
  match a with
  | Page _ locals =>
      match List.find (fun kv => bool_decide (fst kv = key)) locals with
      | Some (_, PNumber n) => Some n
      | _ => None
      end
  | NextError _ => None
  end.

(** The characters that [escape] replaces, but for the ampersand, which its
    replacements contain. *)
Definition html_special (c : ascii) : bool :=
  Ascii.eqb c "034" || Ascii.eqb c "'" || Ascii.eqb c "<" || Ascii.eqb c ">"
  || Ascii.eqb c "/" || Ascii.eqb c "\" || Ascii.eqb c "`".

(** No character of the string is one that [escape] replaces. *)
Fixpoint html_safe (s : string) : bool :=
  match s with
  | EmptyString => true
  | String c rest => negb (html_special c) && html_safe rest
  end.

(** Every character of the string is whitespace. *)
Fixpoint blank (s : string) : bool :=
  match s with
  | EmptyString => true
  | String c rest => Validator.isWhitespace c && blank rest
  end.

(** The text fields of an item are free of the characters that [escape]
    replaces. *)
Definition item_html_safe (i : Item) : Prop :=
  html_safe (item_name i) = true /\
  html_safe (item_description i) = true /\
  html_safe (item_quality i) = true /\
  html_safe (item_slot i) = true.

(** The text fields of an item have the lengths that the validation asks
    for. *)
Definition item_well_sized (i : Item) : Prop :=
  1 <= String.length (item_name i) /\
  3 <= String.length (item_description i) /\
  1 <= String.length (item_quality i) /\
  1 <= String.length (item_slot i).

(** Every stored item has sanitized text fields of the lengths that the
    validation asks for. *)
Definition store_sanitized (w : World) : Prop :=
  map_Forall (fun _ i => item_html_safe i /\ item_well_sized i) (items w).

(** ** Further sample requests *)

Module Sample.

Definition sellers : gmap string Seller :=
  <["p1" := {| seller_id := "p1" |}]> (<["p2" := {| seller_id := "p2" |}]> ∅).

Definition png : File := {| mimetype := "image/png"; buffer := "PNG" |}.
Definition pdf : File := {| mimetype := "application/pdf"; buffer := "PDF" |}.

Definition create_with_image : Request :=
  {| params_id := ""; body := Demo.form Demo.valid_fields; file := Some png |}.

Definition create_with_pdf : Request :=
  {| params_id := ""; body := Demo.form Demo.valid_fields; file := Some pdf |}.

Definition update_with_image : Request :=
  {| params_id := "i1";
     body := Demo.form (("security_code", "123") :: Demo.valid_fields);
     file := Some png |}.

Definition update_with_pdf : Request :=
  {| params_id := "i1";
     body := Demo.form (("security_code", "123") :: Demo.valid_fields);
     file := Some pdf |}.

(** A valid update of an item that is not stored. *)
Definition update_unknown : Request :=
  {| params_id := "i9";
     body := Demo.form (("security_code", "123") :: Demo.valid_fields);
     file := None |}.

(** The right code, fields that do not pass. *)
Definition update_invalid_fields : Request :=
  {| params_id := "i1";
     body := Demo.form [ ("security_code", "123"); ("name", "Sword") ];
     file := None |}.

(** A create whose name needs escaping. *)
Definition create_markup : Request :=
  {| params_id := "";
     body := Demo.form [ ("name", " <b>Sword</b> "); ("description", "A & B");
                         ("quality", "Epic"); ("slot", "s1") ];
     file := None |}.

(** A delete, with the right code, whose form names no stored item. *)
Definition delete_unknown_itemid : Request :=
  {| params_id := "i1";
     body := Demo.form [ ("itemid", "i9"); ("security_code", "123") ];
     file := None |}.

(** The delete of the item that [Demo.create_valid] creates under "i3". *)
Definition delete_created : Request :=
  {| params_id := "i3";
     body := Demo.form [ ("itemid", "i3"); ("security_code", "123") ];
     file := None |}.

Definition detail_sword : Request :=
  {| params_id := "i1"; body := ∅; file := None |}.

Definition detail_shield : Request :=
  {| params_id := "i2"; body := ∅; file := None |}.

Definition detail_created : Request :=
  {| params_id := "i3"; body := ∅; file := None |}.

End Sample.

(** ** Validation *)

Section Validation.

Implicit Types (req : Request) (errs : list Chain.ValidationError).

Lemma run_field_chain f m n req errs :
  Chain.run_chain
    (Chain.body_ f m |> Chain.trim |> Chain.isLength n |> Chain.escape)
    (req, errs)
  = (set_body (<[f := sanitize (field_value req f)]> (body req)) req,
     errs ++ rule (negb (Validator.isLength n (Validator.trim (field_value req f))))
                  f m).
Proof.
  unfold Chain.run_chain, field_value, sanitize, rule. cbn.
  rewrite lookup_insert_eq. cbn.
  destruct (Validator.isLength n _); cbn;
    rewrite lookup_insert_eq, insert_insert_eq; cbn;
    [rewrite app_nil_r|]; reflexivity.
Qed.

Lemma run_file_chain req errs :
  Chain.run_chain
    (Chain.check "itemImage"
       |> Chain.custom itemImage_validator
       |> Chain.withMessage "Please submit a image file")
    (req, errs)
  = (req, errs ++ rule (file_rule_violated req)
                    "itemImage" "Please submit a image file").
Proof.
  unfold Chain.run_chain, rule, file_rule_violated, itemImage_validator. cbn.
  destruct (file req) as [f|]; cbn.
  - destruct (String.prefix "image/" (mimetype f)); cbn;
      [rewrite app_nil_r|]; reflexivity.
  - rewrite app_nil_r; reflexivity.
Qed.

Lemma isLength_ltb n s :
  negb (Validator.isLength n s) = Nat.ltb (String.length s) n.
Proof. unfold Validator.isLength. symmetry. apply Nat.ltb_antisym. Qed.

(** The chains of the create route leave the sanitized request and the
    errors of the specification. *)
Lemma run_create_validators req :
  Chain.run item_create_post_validators req
  = (sanitized req, validation_errors_spec req).
Proof.
  unfold Chain.run, item_create_post_validators. cbn [fold_left].
  rewrite !run_field_chain, run_file_chain, !isLength_ltb.
  unfold field_value, sanitized, validation_errors_spec, field_value, file_rule_violated.
  cbn [body file set_body params_id].
  rewrite !lookup_insert_ne by done.
  rewrite <- !app_assoc. reflexivity.
Qed.

Lemma run_update_validators req :
  Chain.run item_update_post_validators req
  = (sanitized req, validation_errors_spec req).
Proof. exact (run_create_validators req). Qed.

Lemma rule_nil b f m : rule b f m = [] <-> b = false.
Proof. destruct b; cbn; split; congruence. Qed.

Lemma validation_errors_nil req :
  validation_errors_spec req = [] <-> spec_compliant req.
Proof.
  unfold validation_errors_spec, spec_compliant.
  rewrite !app_nil, !rule_nil, !Nat.ltb_ge.
  unfold file_rule_violated.
  destruct (file req) as [f|].
  - rewrite negb_false_iff. split.
    + intros (?&?&?&?&?). repeat split; try done. right. by exists f.
    + intros (?&?&?&?&[?|(f'&[= <-]&?)]); done.
  - split; [intros (?&?&?&?&?)|intros (?&?&?&?&?)]; repeat split; auto.
Qed.

Lemma sanitized_other req k :
  k <> "name" -> k <> "description" -> k <> "quality" -> k <> "slot" ->
  body (sanitized req) !! k = body req !! k.
Proof.
  intros. unfold sanitized; cbn. by rewrite !lookup_insert_ne.
Qed.

Lemma sanitized_file req : file (sanitized req) = file req.
Proof. reflexivity. Qed.

Lemma sanitized_params_id req : params_id (sanitized req) = params_id req.
Proof. reflexivity. Qed.

End Validation.

(** ** The handlers, run on a store *)

Ltac unfold_handler :=
  repeat progress unfold run_handler, mbind, handler_bind, mret, handler_ret,
    ItemModel.findById, ItemModel.findById_populate_slot, ItemModel.save,
    ItemModel.findByIdAndDelete, ItemModel.findByIdAndUpdate,
    ItemInstanceModel.find_by_item_populate_item,
    SlotModel.find_all, SlotModel.find_all_sort_name,
    cloudinary_upload, res_render, res_redirect, send, get_world, put_world;
  cbn [world sent fst snd app].

Section Handlers.

Variable base64 : string -> string.
Variable secure_url : list (string * UploadOptions) -> string -> UploadOptions -> string.
Variable item_url : Item -> string.

Implicit Types (w : World) (req : Request).

Lemma wrong_security_code_spec req :
  wrong_security_code req = true <-> body req !! "security_code" <> Some "123".
Proof. unfold wrong_security_code. apply bool_decide_eq_true. Qed.

Lemma right_security_code_spec req :
  wrong_security_code req = false <-> body req !! "security_code" = Some "123".
Proof.
  unfold wrong_security_code. rewrite bool_decide_eq_false.
  split; [apply dec_stable | intros H Hn; exact (Hn H)].
Qed.

Lemma wrong_security_code_sanitized req :
  wrong_security_code (sanitized req) = wrong_security_code req.
Proof. unfold wrong_security_code. by rewrite sanitized_other. Qed.

(** The document that the handlers build from the sanitized request. *)
Lemma new_item_sanitized id req :
  {| item_id := id;
     item_name := Chain.toString (body (sanitized req) !! "name");
     item_description := Chain.toString (body (sanitized req) !! "description");
     item_quality := Chain.toString (body (sanitized req) !! "quality");
     item_slot := Chain.toString (body (sanitized req) !! "slot");
     item_imgUrl := None |}
  = candidate id req None.
Proof.
  unfold candidate, sanitized; cbn [body set_body]. f_equal.
  - rewrite !lookup_insert_ne by done. by rewrite lookup_insert_eq.
  - rewrite !lookup_insert_ne by done. by rewrite lookup_insert_eq.
  - rewrite lookup_insert_ne by done. by rewrite lookup_insert_eq.
  - by rewrite lookup_insert_eq.
Qed.

Lemma errors_empty_spec (errs : list Chain.ValidationError) :
  negb (bool_decide (errs = [])) = false <-> errs = [].
Proof. rewrite negb_false_iff. apply bool_decide_eq_true. Qed.

(** *** Create *)

Lemma item_create_post_run oid w req :
  run_handler (item_create_post base64 secure_url item_url oid req) w
  = if negb (bool_decide (validation_errors_spec req = []))
    then (w, [ Render "item_form"
                 [ ("title", LString "Create Item");
                   ("slots", LSlots (slots w));
                   ("item", LNewItem (candidate oid req None));
                   ("errors", LErrors (validation_errors_spec req)) ] ])
    else
      match file req with
      | Some f =>
          let o := {| resource_type := "image"; folder := "wow_inventory";
                      public_id := None; overwrite := None; invalidate := None |} in
          let item :=
            candidate oid req (Some (secure_url (uploads w) (dataURI_of base64 f) o)) in
          ({| items := <[oid := item]> (items w);
              itemInstances := itemInstances w;
              slots := slots w;
              uploads := uploads w ++ [(dataURI_of base64 f, o)] |},
           [ Redirect (item_url item) ])
      | None =>
          let item := candidate oid req (Some "#") in
          ({| items := <[oid := item]> (items w);
              itemInstances := itemInstances w;
              slots := slots w;
              uploads := uploads w |},
           [ Redirect (item_url item) ])
      end.
Proof.
  unfold item_create_post. rewrite run_create_validators.
  unfold item_create_post_handler.
  rewrite new_item_sanitized, sanitized_file.
  destruct (negb _).
  - unfold_handler. reflexivity.
  - destruct (file req) as [f|]; unfold_handler; reflexivity.
Qed.

(** *** Delete *)

Lemma item_delete_get_run w req :
  run_handler (item_delete_get req) w
  = (w,
     (if bool_decide (items w !! params_id req = None)
      then [ Redirect "/catalog/items" ] else [])
     ++ [ Render "item_delete"
            [ ("title", LString "Delete Item");
              ("item", LItem (items w !! params_id req));
              ("itemInstances",
               LInstances (ItemInstanceModel.populate_item w <$>
                 List.filter (fun i => bool_decide (instance_item i = params_id req))
                   (itemInstances w))) ] ]).
Proof.
  unfold item_delete_get. unfold_handler.
  destruct (bool_decide _); unfold_handler; reflexivity.
Qed.

Lemma item_delete_post_run w req :
  run_handler (item_delete_post req) w
  = if Nat.ltb 0 (instance_count w (params_id req)) || wrong_security_code req
    then (w, [ Render "item_delete"
            [ ("title", LString "Delete Item");
              ("item", LItem (items w !! params_id req));
              ("itemInstances",
               LInstances (ItemInstanceModel.populate_item w <$>
                 List.filter (fun i => bool_decide (instance_item i = params_id req))
                   (itemInstances w)));
              ("code", LField (body req !! "security_code"));
              ("error", LString "Wrong security code.") ] ])
    else ({| items := from_option (fun k => delete k (items w)) (items w)
                         (body req !! "itemid");
             itemInstances := itemInstances w;
             slots := slots w;
             uploads := uploads w |},
          [ Redirect "/catalog/items" ]).
Proof.
  unfold item_delete_post, instance_count. unfold_handler.
  rewrite length_fmap.
  destruct (_ || _); reflexivity.
Qed.

(** *** Update *)

Lemma item_update_post_run w req :
  run_handler (item_update_post base64 secure_url item_url req) w
  = if negb (bool_decide (validation_errors_spec req = [])) || wrong_security_code req
    then (w, [ Render "item_form"
                 [ ("title", LString "Update Item");
                   ("item", LPopulatedItem
                              (ItemModel.populate_slot w <$> items w !! params_id req));
                   ("slots", LSlots (merge_sort SlotModel.name_le (slots w)));
                   ("errors", LErrors (validation_errors_spec req));
                   ("code", LField (body req !! "security_code"));
                   ("form_type", LString "update");
                   ("error", LString (if wrong_security_code req
                                      then "Wrong security code." else "")) ] ])
    else
      match file req with
      | Some f =>
          let o := {| resource_type := "image"; folder := "wow_inventory";
                      public_id := Some (params_id req);
                      overwrite := Some true; invalidate := Some true |} in
          let item :=
            candidate (params_id req) req
              (Some (secure_url (uploads w) (dataURI_of base64 f) o)) in
          ({| items := alter (fun old => ItemModel.updated old item)
                             (params_id req) (items w);
              itemInstances := itemInstances w;
              slots := slots w;
              uploads := uploads w ++ [(dataURI_of base64 f, o)] |},
           [ Redirect (item_url item) ])
      | None =>
          let item := candidate (params_id req) req (Some "#") in
          ({| items := alter (fun old => ItemModel.updated old item)
                             (params_id req) (items w);
              itemInstances := itemInstances w;
              slots := slots w;
              uploads := uploads w |},
           [ Redirect (item_url item) ])
      end.
Proof.
  unfold item_update_post. rewrite run_update_validators.
  unfold item_update_post_handler.
  rewrite wrong_security_code_sanitized, sanitized_params_id,
    new_item_sanitized, sanitized_file.
  rewrite (sanitized_other req "security_code") by done.
  destruct (_ || _).
  - unfold_handler. reflexivity.
  - destruct (file req) as [f|]; unfold_handler; reflexivity.
Qed.

End Handlers.

(** ** The properties of the specification *)

Ltac pick_rule H :=
  first [ split; [exact H | reflexivity]
        | left; split; [exact H | reflexivity]
        | right; pick_rule H ].

Section Properties.

Variable base64 : string -> string.
Variable secure_url : list (string * UploadOptions) -> string -> UploadOptions -> string.
Variable item_url : Item -> string.

Implicit Types (w : World) (req : Request).

Lemma elem_of_rule e b f m :
  e ∈ rule b f m <-> b = true /\ e = {| Chain.path := f; Chain.msg := m |}.
Proof.
  destruct b; cbn.
  - rewrite list_elem_of_singleton. intuition.
  - split; [intros H; inversion H | intros [? _]; discriminate].
Qed.

(** C4. The Validation Stage, which the create and the update routes run
    with the same chains, returns on every request the errors of the
    specification: each of the five messages is among the errors exactly
    when its rule is violated by the trimmed value, and there is no error
    exactly when the request violates none of the rules. *)
Theorem validation_stage_errors req :
  let errs := snd (Chain.run item_create_post_validators req) in
  snd (Chain.run item_update_post_validators req) = errs /\
  errs = validation_errors_spec req /\
  ({| Chain.path := "name"; Chain.msg := "Name must not be empty." |} ∈ errs
     <-> String.length (Validator.trim (field_value req "name")) < 1) /\
  ({| Chain.path := "description"; Chain.msg := "Description must not be empty." |} ∈ errs
     <-> String.length (Validator.trim (field_value req "description")) < 3) /\
  ({| Chain.path := "quality"; Chain.msg := "Quality must not be empty." |} ∈ errs
     <-> String.length (Validator.trim (field_value req "quality")) < 1) /\
  ({| Chain.path := "slot"; Chain.msg := "Slot must not be empty" |} ∈ errs
     <-> String.length (Validator.trim (field_value req "slot")) < 1) /\
  ({| Chain.path := "itemImage"; Chain.msg := "Please submit a image file" |} ∈ errs
     <-> exists f, file req = Some f /\ String.prefix "image/" (mimetype f) = false) /\
  (errs = [] <-> spec_compliant req).
Proof.
  cbn zeta. rewrite run_update_validators, run_create_validators. cbn [snd].
  split; [reflexivity|]. split; [reflexivity|].
  unfold validation_errors_spec.
  rewrite !elem_of_app, !elem_of_rule, !Nat.ltb_lt.
  repeat lazymatch goal with |- _ /\ _ => split end.
  1-4: split; [intros H; repeat (destruct H as [H|H]);
               destruct H as [H He]; try discriminate He; exact H
              |intros H; pick_rule H].
  - split.
    + intros H; repeat (destruct H as [H|H]);
        destruct H as [H He]; try discriminate He.
      unfold file_rule_violated in H.
      destruct (file req) as [f|]; [|discriminate].
      exists f. split; [done|]. by apply negb_true_iff.
    + intros (f & Hf & Hp).
      assert (file_rule_violated req = true) as H
        by (unfold file_rule_violated; rewrite Hf, Hp; reflexivity).
      pick_rule H.
  - apply validation_errors_nil.
Qed.

(** C7. A create whose validation gives errors persists nothing: the store
    is left as it was, and the only call on the response renders the item
    form with the slots of the store, the candidate built from the
    sanitized fields, and the errors. *)
Theorem create_invalid_renders_form oid w req :
  let errs := snd (Chain.run item_create_post_validators req) in
  errs <> [] ->
  run_handler (item_create_post base64 secure_url item_url oid req) w
  = (w, [ Render "item_form"
            [ ("title", LString "Create Item");
              ("slots", LSlots (slots w));
              ("item", LNewItem (candidate oid req None));
              ("errors", LErrors errs) ] ]).
Proof.
  cbn zeta. rewrite run_create_validators. cbn [snd]. intros Herrs.
  rewrite item_create_post_run.
  destruct (negb _) eqn:E; [reflexivity|].
  apply errors_empty_spec in E. contradiction.
Qed.

(** C6. A create with valid input and no file persists a new Item whose
    imgUrl is the sentinel, leaves every other record as it was, and
    answers with a redirect to the url of the new item. *)
Theorem create_valid_no_file oid w req :
  snd (Chain.run item_create_post_validators req) = [] ->
  file req = None ->
  let r := run_handler (item_create_post base64 secure_url item_url oid req) w in
  let item := candidate oid req (Some "#") in
  items (fst r) !! oid = Some item /\
  item_imgUrl item = Some "#" /\
  (forall k, k <> oid -> items (fst r) !! k = items w !! k) /\
  snd r = [ Redirect (item_url item) ].
Proof.
  rewrite run_create_validators. cbn [snd]. intros Herrs Hfile. cbn zeta.
  rewrite item_create_post_run, Hfile.
  apply errors_empty_spec in Herrs. rewrite Herrs. cbn [fst snd items].
  split; [apply lookup_insert_eq|]. split; [reflexivity|].
  split; [|reflexivity].
  intros k Hk. by rewrite lookup_insert_ne.
Qed.

(** C2. An update with a wrong security code changes nothing in the store,
    whether the fields are valid or not: the only call on the response
    renders the item form with the stored item, the slots, the echoed code
    and the message of the wrong code. *)
Theorem update_wrong_code_no_mutation w req :
  body req !! "security_code" <> Some "123" ->
  run_handler (item_update_post base64 secure_url item_url req) w
  = (w, [ Render "item_form"
            [ ("title", LString "Update Item");
              ("item", LPopulatedItem
                         (ItemModel.populate_slot w <$> items w !! params_id req));
              ("slots", LSlots (merge_sort SlotModel.name_le (slots w)));
              ("errors", LErrors (snd (Chain.run item_update_post_validators req)));
              ("code", LField (body req !! "security_code"));
              ("form_type", LString "update");
              ("error", LString "Wrong security code.") ] ]).
Proof.
  intros Hcode. apply wrong_security_code_spec in Hcode.
  rewrite item_update_post_run, run_update_validators, Hcode, orb_true_r.
  reflexivity.
Qed.

(** C5. An update that passes the gate and carries no file sets the imgUrl
    of the stored item to the sentinel, whatever it was before. *)
Theorem update_no_file_resets_imgUrl w req old :
  snd (Chain.run item_update_post_validators req) = [] ->
  body req !! "security_code" = Some "123" ->
  file req = None ->
  items w !! params_id req = Some old ->
  let r := run_handler (item_update_post base64 secure_url item_url req) w in
  exists new,
    items (fst r) !! params_id req = Some new /\
    item_imgUrl new = Some "#" /\
    new = ItemModel.updated old (candidate (params_id req) req (Some "#")).
Proof.
  rewrite run_update_validators. cbn [snd].
  intros Herrs Hcode Hfile Hold. cbn zeta.
  apply errors_empty_spec in Herrs. apply right_security_code_spec in Hcode.
  rewrite item_update_post_run, Herrs, Hcode, Hfile. cbn [orb fst items].
  eexists. split; [|split; [|reflexivity]].
  - rewrite lookup_alter_eq, Hold. reflexivity.
  - reflexivity.
Qed.

(** C3. A delete of an item that at least one instance references is
    refused, with any security code: the store is left as it was, and the
    only call on the response renders the confirmation page with the
    message of the wrong code. *)
Theorem delete_refused_with_instances w req :
  0 < instance_count w (params_id req) ->
  run_handler (item_delete_post req) w
  = (w, [ Render "item_delete"
            [ ("title", LString "Delete Item");
              ("item", LItem (items w !! params_id req));
              ("itemInstances",
               LInstances (ItemInstanceModel.populate_item w <$>
                 List.filter (fun i => bool_decide (instance_item i = params_id req))
                   (itemInstances w)));
              ("code", LField (body req !! "security_code"));
              ("error", LString "Wrong security code.") ] ]).
Proof.
  intros Hcount. apply Nat.ltb_lt in Hcount.
  rewrite item_delete_post_run, Hcount. reflexivity.
Qed.


(** What line 206 removes is the record named by the field itemid of the
    form, under the gate computed for the item of the route: the record of
    itemid is removed if and only if no instance references the item of the
    route and the security code is the expected one; the delete then leaves
    the other collections as they were and answers with a redirect to the
    item list.  When itemid is the id of the route, this is the delete that
    the comments of the handler describe. *)
Theorem delete_removes_form_item_iff w req k it :
  body req !! "itemid" = Some k ->
  items w !! k = Some it ->
  let r := run_handler (item_delete_post req) w in
  (items (fst r) !! k = None
     <-> instance_count w (params_id req) = 0
         /\ body req !! "security_code" = Some "123") /\
  (instance_count w (params_id req) = 0 ->
   body req !! "security_code" = Some "123" ->
   r = ({| items := delete k (items w);
           itemInstances := itemInstances w;
           slots := slots w;
           uploads := uploads w |},
        [ Redirect "/catalog/items" ])).
Proof.
  intros Hid Hit. cbn zeta. rewrite item_delete_post_run, Hid. cbn [from_option].
  split.
  - destruct (Nat.ltb 0 _) eqn:Hc; cbn [orb].
    + cbn [fst]. rewrite Hit. apply Nat.ltb_lt in Hc.
      split; [discriminate | intros [? _]; lia].
    + apply Nat.ltb_ge in Hc.
      destruct (wrong_security_code req) eqn:Hs; cbn [fst items].
      * apply wrong_security_code_spec in Hs. rewrite Hit.
        split; [discriminate | intros [_ ?]; contradiction].
      * apply right_security_code_spec in Hs. rewrite lookup_delete_eq.
        split; [intros _; split; [lia | exact Hs] | reflexivity].
  - intros Hc Hs. apply right_security_code_spec in Hs.
    rewrite Hc, Hs. reflexivity.
Qed.

(** C8. A delete confirmation asked for an item that is not stored calls
    the redirect to the item list and then, as nothing ends the handler
    there, goes on to render the confirmation page with a null item. *)
Theorem delete_get_unknown_item_also_renders w req :
  items w !! params_id req = None ->
  run_handler (item_delete_get req) w
  = (w, [ Redirect "/catalog/items";
          Render "item_delete"
            [ ("title", LString "Delete Item");
              ("item", LItem None);
              ("itemInstances",
               LInstances (ItemInstanceModel.populate_item w <$>
                 List.filter (fun i => bool_decide (instance_item i = params_id req))
                   (itemInstances w))) ] ]).
Proof.
  intros Hnone. rewrite item_delete_get_run, Hnone.
  rewrite bool_decide_eq_true_2 by reflexivity. reflexivity.
Qed.

(** C9. A refused update and a refused delete are idempotent: the run
    leaves the store as it was and makes one call on the response, a
    render; the same request run on the store that is left makes the same
    call and leaves the same store. *)
Theorem refused_update_delete_idempotent w ureq dreq :
  (snd (Chain.run item_update_post_validators ureq) <> []
     \/ body ureq !! "security_code" <> Some "123" ->
   let r := run_handler (item_update_post base64 secure_url item_url ureq) w in
   fst r = w /\
   (exists view locals, snd r = [ Render view locals ]) /\
   run_handler (item_update_post base64 secure_url item_url ureq) (fst r) = r) /\
  (0 < instance_count w (params_id dreq)
     \/ body dreq !! "security_code" <> Some "123" ->
   let r := run_handler (item_delete_post dreq) w in
   fst r = w /\
   (exists view locals, snd r = [ Render view locals ]) /\
   run_handler (item_delete_post dreq) (fst r) = r).
Proof.
  split.
  - rewrite run_update_validators. cbn [snd]. intros Hgate. cbn zeta.
    rewrite item_update_post_run.
    assert (negb (bool_decide (validation_errors_spec ureq = []))
            || wrong_security_code ureq = true) as Hb.
    { apply orb_true_iff. destruct Hgate as [H|H].
      - left. apply negb_true_iff, bool_decide_eq_false. exact H.
      - right. by apply wrong_security_code_spec. }
    rewrite !Hb. cbn [fst snd].
    split; [reflexivity|]. split; [eauto|].
    rewrite item_update_post_run, Hb. reflexivity.
  - intros Hgate. cbn zeta. rewrite item_delete_post_run.
    assert (Nat.ltb 0 (instance_count w (params_id dreq))
            || wrong_security_code dreq = true) as Hb.
    { apply orb_true_iff. destruct Hgate as [H|H].
      - left. by apply Nat.ltb_lt.
      - right. by apply wrong_security_code_spec. }
    rewrite !Hb. cbn [fst snd].
    split; [reflexivity|]. split; [eauto|].
    rewrite item_delete_post_run, Hb. reflexivity.
Qed.

End Properties.


(** On the sample store, a delete on the route of the sword whose form names
    the shield passes the gate (no instance references the sword, the code
    is right), and the sword is not removed. *)
Lemma delete_mismatch_keeps_route_item :
  ~ (items (fst (run_handler (item_delete_post Demo.delete_mismatch) Demo.store))
       !! params_id Demo.delete_mismatch = None
     <-> instance_count Demo.store (params_id Demo.delete_mismatch) = 0
         /\ body Demo.delete_mismatch !! "security_code" = Some "123").
Proof.
  intros [_ H].
  assert (instance_count Demo.store (params_id Demo.delete_mismatch) = 0
          /\ body Demo.delete_mismatch !! "security_code" = Some "123") as Hgate
    by (split; vm_compute; reflexivity).
  specialize (H Hgate). vm_compute in H. discriminate H.
Qed.

(** C1. The defect of the delete: the gate is computed for the item of the
    route, and line 206 deletes the item named by the form.  When the two
    ids differ and the gate passes, the item of the route, whose instances
    were counted, stays stored; the item of the form is removed without its
    instances being looked at; and the answer is the redirect of a
    successful delete. *)
Theorem delete_mismatch_removes_unchecked_item (w : World) (req : Request)
    (k : string) (checked : Item) :
  body req !! "itemid" = Some k ->
  k <> params_id req ->
  instance_count w (params_id req) = 0 ->
  body req !! "security_code" = Some "123" ->
  items w !! params_id req = Some checked ->
  let r := run_handler (item_delete_post req) w in
  items (fst r) !! params_id req = Some checked /\
  items (fst r) !! k = None /\
  itemInstances (fst r) = itemInstances w /\
  snd r = [ Redirect "/catalog/items" ].
Proof.
  intros Hid Hne Hcount Hcode Hchecked. cbn zeta.
  apply right_security_code_spec in Hcode.
  rewrite item_delete_post_run, Hcount, Hcode, Hid.
  cbn [orb Nat.ltb Nat.leb fst snd from_option items itemInstances].
  split; [by rewrite lookup_delete_ne|].
  split; [apply lookup_delete_eq|]. split; reflexivity.
Qed.

(** On the sample store the item removed is the shield, which two instances
    reference. *)
Lemma delete_mismatch_removes_unchecked_item_witness :
  body Demo.delete_mismatch !! "itemid" = Some "i2" /\
  "i2" <> params_id Demo.delete_mismatch /\
  instance_count Demo.store (params_id Demo.delete_mismatch) = 0 /\
  body Demo.delete_mismatch !! "security_code" = Some "123" /\
  items Demo.store !! params_id Demo.delete_mismatch = Some Demo.sword /\
  instance_count Demo.store "i2" = 2 /\
  let r := run_handler (item_delete_post Demo.delete_mismatch) Demo.store in
  items (fst r) !! params_id Demo.delete_mismatch = Some Demo.sword /\
  items (fst r) !! "i2" = None /\
  itemInstances (fst r) = itemInstances Demo.store /\
  snd r = [ Redirect "/catalog/items" ].
Proof.
  split; [vm_compute; reflexivity|]. split; [discriminate|].
  split; [vm_compute; reflexivity|]. split; [vm_compute; reflexivity|].
  split; [vm_compute; reflexivity|]. split; [vm_compute; reflexivity|].
  apply (delete_mismatch_removes_unchecked_item
           Demo.store Demo.delete_mismatch "i2" Demo.sword).
  - vm_compute. reflexivity.
  - discriminate.
  - vm_compute. reflexivity.
  - vm_compute. reflexivity.
  - vm_compute. reflexivity.
Defined.

(** ** The theorems on the sample store *)

Lemma create_invalid_renders_form_witness :
  snd (Chain.run item_create_post_validators Demo.create_no_name) <> [] /\
  run_handler
    (item_create_post Demo.base64 Demo.secure_url Demo.item_url "i3" Demo.create_no_name)
    Demo.store
  = (Demo.store,
     [ Render "item_form"
         [ ("title", LString "Create Item");
           ("slots", LSlots (slots Demo.store));
           ("item", LNewItem (candidate "i3" Demo.create_no_name None));
           ("errors",
            LErrors (snd (Chain.run item_create_post_validators Demo.create_no_name))) ] ]).
Proof.
  split.
  - vm_compute. discriminate.
  - apply (create_invalid_renders_form
             Demo.base64 Demo.secure_url Demo.item_url "i3" Demo.store Demo.create_no_name).
    vm_compute. discriminate.
Defined.

Lemma create_valid_no_file_witness :
  snd (Chain.run item_create_post_validators Demo.create_valid) = [] /\
  file Demo.create_valid = None /\
  let r := run_handler
             (item_create_post Demo.base64 Demo.secure_url Demo.item_url "i3"
                Demo.create_valid) Demo.store in
  let item := candidate "i3" Demo.create_valid (Some "#") in
  items (fst r) !! "i3" = Some item /\
  item_imgUrl item = Some "#" /\
  (forall k, k <> "i3" -> items (fst r) !! k = items Demo.store !! k) /\
  snd r = [ Redirect (Demo.item_url item) ].
Proof.
  split; [vm_compute; reflexivity|]. split; [reflexivity|].
  apply (create_valid_no_file
           Demo.base64 Demo.secure_url Demo.item_url "i3" Demo.store Demo.create_valid).
  - vm_compute. reflexivity.
  - reflexivity.
Defined.

Lemma update_wrong_code_no_mutation_witness :
  body Demo.update_wrong_code !! "security_code" <> Some "123" /\
  run_handler
    (item_update_post Demo.base64 Demo.secure_url Demo.item_url Demo.update_wrong_code)
    Demo.store
  = (Demo.store,
     [ Render "item_form"
         [ ("title", LString "Update Item");
           ("item", LPopulatedItem
                      (ItemModel.populate_slot Demo.store <$>
                         items Demo.store !! params_id Demo.update_wrong_code));
           ("slots", LSlots (merge_sort SlotModel.name_le (slots Demo.store)));
           ("errors",
            LErrors (snd (Chain.run item_update_post_validators Demo.update_wrong_code)));
           ("code", LField (body Demo.update_wrong_code !! "security_code"));
           ("form_type", LString "update");
           ("error", LString "Wrong security code.") ] ]).
Proof.
  split.
  - vm_compute. discriminate.
  - apply (update_wrong_code_no_mutation
             Demo.base64 Demo.secure_url Demo.item_url Demo.store Demo.update_wrong_code).
    vm_compute. discriminate.
Defined.

Lemma update_no_file_resets_imgUrl_witness :
  snd (Chain.run item_update_post_validators Demo.update_valid) = [] /\
  body Demo.update_valid !! "security_code" = Some "123" /\
  file Demo.update_valid = None /\
  items Demo.store !! params_id Demo.update_valid = Some Demo.sword /\
  item_imgUrl Demo.sword <> Some "#" /\
  let r := run_handler
             (item_update_post Demo.base64 Demo.secure_url Demo.item_url Demo.update_valid)
             Demo.store in
  exists new,
    items (fst r) !! params_id Demo.update_valid = Some new /\
    item_imgUrl new = Some "#" /\
    new = ItemModel.updated Demo.sword
            (candidate (params_id Demo.update_valid) Demo.update_valid (Some "#")).
Proof.
  split; [vm_compute; reflexivity|]. split; [vm_compute; reflexivity|].
  split; [reflexivity|]. split; [vm_compute; reflexivity|].
  split; [vm_compute; discriminate|].
  apply (update_no_file_resets_imgUrl
           Demo.base64 Demo.secure_url Demo.item_url Demo.store Demo.update_valid Demo.sword).
  - vm_compute. reflexivity.
  - vm_compute. reflexivity.
  - reflexivity.
  - vm_compute. reflexivity.
Defined.

Lemma delete_refused_with_instances_witness :
  0 < instance_count Demo.store (params_id Demo.delete_shield) /\
  body Demo.delete_shield !! "security_code" = Some "123" /\
  run_handler (item_delete_post Demo.delete_shield) Demo.store
  = (Demo.store,
     [ Render "item_delete"
         [ ("title", LString "Delete Item");
           ("item", LItem (items Demo.store !! params_id Demo.delete_shield));
           ("itemInstances",
            LInstances (ItemInstanceModel.populate_item Demo.store <$>
              List.filter
                (fun i => bool_decide (instance_item i = params_id Demo.delete_shield))
                (itemInstances Demo.store)));
           ("code", LField (body Demo.delete_shield !! "security_code"));
           ("error", LString "Wrong security code.") ] ]).
Proof.
  split; [vm_compute; lia|]. split; [vm_compute; reflexivity|].
  apply (delete_refused_with_instances Demo.store Demo.delete_shield).
  vm_compute. lia.
Defined.

Lemma delete_removes_form_item_iff_witness :
  body Demo.delete_sword !! "itemid" = Some "i1" /\
  items Demo.store !! "i1" = Some Demo.sword /\
  let r := run_handler (item_delete_post Demo.delete_sword) Demo.store in
  (items (fst r) !! "i1" = None
     <-> instance_count Demo.store (params_id Demo.delete_sword) = 0
         /\ body Demo.delete_sword !! "security_code" = Some "123") /\
  (instance_count Demo.store (params_id Demo.delete_sword) = 0 ->
   body Demo.delete_sword !! "security_code" = Some "123" ->
   r = ({| items := delete "i1" (items Demo.store);
           itemInstances := itemInstances Demo.store;
           slots := slots Demo.store;
           uploads := uploads Demo.store |},
        [ Redirect "/catalog/items" ])).
Proof.
  split; [vm_compute; reflexivity|]. split; [vm_compute; reflexivity|].
  apply (delete_removes_form_item_iff Demo.store Demo.delete_sword "i1" Demo.sword).
  - vm_compute. reflexivity.
  - vm_compute. reflexivity.
Defined.

Lemma delete_get_unknown_item_also_renders_witness :
  items Demo.store !! params_id Demo.delete_unknown = None /\
  run_handler (item_delete_get Demo.delete_unknown) Demo.store
  = (Demo.store,
     [ Redirect "/catalog/items";
       Render "item_delete"
         [ ("title", LString "Delete Item");
           ("item", LItem None);
           ("itemInstances",
            LInstances (ItemInstanceModel.populate_item Demo.store <$>
              List.filter
                (fun i => bool_decide (instance_item i = params_id Demo.delete_unknown))
                (itemInstances Demo.store))) ] ]).
Proof.
  split; [vm_compute; reflexivity|].
  apply (delete_get_unknown_item_also_renders Demo.store Demo.delete_unknown).
  vm_compute. reflexivity.
Defined.

Lemma refused_update_delete_idempotent_witness :
  (snd (Chain.run item_update_post_validators Demo.update_wrong_code) <> []
   \/ body Demo.update_wrong_code !! "security_code" <> Some "123") /\
  (0 < instance_count Demo.store (params_id Demo.delete_shield)
   \/ body Demo.delete_shield !! "security_code" <> Some "123") /\
  (let r := run_handler
              (item_update_post Demo.base64 Demo.secure_url Demo.item_url
                 Demo.update_wrong_code) Demo.store in
   fst r = Demo.store /\
   (exists view locals, snd r = [ Render view locals ]) /\
   run_handler
     (item_update_post Demo.base64 Demo.secure_url Demo.item_url Demo.update_wrong_code)
     (fst r) = r) /\
  (let r := run_handler (item_delete_post Demo.delete_shield) Demo.store in
   fst r = Demo.store /\
   (exists view locals, snd r = [ Render view locals ]) /\
   run_handler (item_delete_post Demo.delete_shield) (fst r) = r).
Proof.
  assert (snd (Chain.run item_update_post_validators Demo.update_wrong_code) <> []
          \/ body Demo.update_wrong_code !! "security_code" <> Some "123") as Hu
    by (right; vm_compute; discriminate).
  assert (0 < instance_count Demo.store (params_id Demo.delete_shield)
          \/ body Demo.delete_shield !! "security_code" <> Some "123") as Hd
    by (left; vm_compute; lia).
  split; [exact Hu|]. split; [exact Hd|].
  destruct (refused_update_delete_idempotent
              Demo.base64 Demo.secure_url Demo.item_url
              Demo.store Demo.update_wrong_code Demo.delete_shield) as [Hupdate Hdelete].
  split; [exact (Hupdate Hu) | exact (Hdelete Hd)].
Defined.

(** ** The scenarios of the specification *)

(** A create whose name is blank gives the one error of the name. *)
Example create_no_name_errors :
  snd (Chain.run item_create_post_validators Demo.create_no_name)
  = [ {| Chain.path := "name"; Chain.msg := "Name must not be empty." |} ].
Proof. vm_compute. reflexivity. Qed.

(** The sanitizers run whatever the validators say: the description is
    escaped although its trimmed value is too short. *)
Example sanitized_although_invalid :
  let req := {| params_id := ""; body := Demo.form [ ("description", " <b ") ];
                file := None |} in
  body (fst (Chain.run item_create_post_validators req)) !! "description"
  = Some "&lt;b".
Proof. vm_compute. reflexivity. Qed.

(** A delete of the shield, with the right code, is refused: two instances
    reference it. *)
Example delete_shield_refused :
  fst (run_handler (item_delete_post Demo.delete_shield) Demo.store) = Demo.store.
Proof. vm_compute. reflexivity. Qed.

(** A delete of the sword goes through. *)
Example delete_sword_accepted :
  snd (run_handler (item_delete_post Demo.delete_sword) Demo.store)
  = [ Redirect "/catalog/items" ].
Proof. vm_compute. reflexivity. Qed.

(** ** The validator functions on strings *)

Section Strings.

Lemma escapeChar_length c : 1 <= String.length (Validator.escapeChar c).
Proof.
  unfold Validator.escapeChar.
  repeat (destruct (Ascii.eqb c _); [cbn; lia|]). cbn; lia.
Qed.

Lemma append_cons c (s t : string) : String c s +:+ t = String c (s +:+ t).
Proof. reflexivity. Qed.

Lemma string_length_app (s t : string) :
  String.length (s +:+ t) = String.length s + String.length t.
Proof.
  induction s as [|c s IH]; [reflexivity|].
  rewrite append_cons. cbn. by rewrite IH.
Qed.

(** [escape] never shortens a string. *)
Lemma escape_length s : String.length s <= String.length (Validator.escape s).
Proof.
  induction s as [|c s IH]; cbn; [lia|].
  rewrite string_length_app. pose proof (escapeChar_length c). lia.
Qed.

Lemma html_safe_app (s t : string) :
  html_safe (s +:+ t) = html_safe s && html_safe t.
Proof.
  induction s as [|c s IH]; [reflexivity|].
  rewrite append_cons. cbn. by rewrite IH, andb_assoc.
Qed.

Lemma escapeChar_html_safe c : html_safe (Validator.escapeChar c) = true.
Proof.
  unfold Validator.escapeChar.
  destruct (Ascii.eqb c "&") eqn:E1; [reflexivity|].
  destruct (Ascii.eqb c "034") eqn:E2; [reflexivity|].
  destruct (Ascii.eqb c "'") eqn:E3; [reflexivity|].
  destruct (Ascii.eqb c "<") eqn:E4; [reflexivity|].
  destruct (Ascii.eqb c ">") eqn:E5; [reflexivity|].
  destruct (Ascii.eqb c "/") eqn:E6; [reflexivity|].
  destruct (Ascii.eqb c "\") eqn:E7; [reflexivity|].
  destruct (Ascii.eqb c "`") eqn:E8; [reflexivity|].
  cbn [html_safe]. unfold html_special.
  by rewrite E2, E3, E4, E5, E6, E7, E8.
Qed.

(** The result of [escape] holds none of the characters it replaces. *)
Lemma escape_html_safe s : html_safe (Validator.escape s) = true.
Proof.
  induction s as [|c s IH]; cbn; [reflexivity|].
  by rewrite html_safe_app, escapeChar_html_safe, IH.
Qed.

(** Trimming a blank string leaves nothing. *)
Lemma trim_blank s : blank s = true -> Validator.trim s = "".
Proof.
  unfold Validator.trim. induction s as [|c s IH]; cbn; [reflexivity|].
  intros [Hc Hs]%andb_true_iff. rewrite Hc. by apply IH.
Qed.

Lemma candidate_html_safe id req img : item_html_safe (candidate id req img).
Proof. unfold item_html_safe, candidate, sanitize; cbn. by rewrite !escape_html_safe. Qed.

Lemma candidate_well_sized id req img :
  spec_compliant req -> item_well_sized (candidate id req img).
Proof.
  intros (Hn & Hd & Hq & Hs & _). unfold item_well_sized, candidate, sanitize; cbn.
  pose proof (escape_length (Validator.trim (field_value req "name"))).
  pose proof (escape_length (Validator.trim (field_value req "description"))).
  pose proof (escape_length (Validator.trim (field_value req "quality"))).
  pose proof (escape_length (Validator.trim (field_value req "slot"))).
  repeat split; lia.
Qed.

End Strings.

(** ** The write pipeline beyond the claims *)

Section Pipeline.

Variable base64 : string -> string.
Variable secure_url : list (string * UploadOptions) -> string -> UploadOptions -> string.
Variable item_url : Item -> string.

Implicit Types (w : World) (req : Request).

Lemma accepted_file_is_image req f :
  validation_errors_spec req = [] -> file req = Some f ->
  String.prefix "image/" (mimetype f) = true.
Proof.
  intros Herrs Hf. apply validation_errors_nil in Herrs.
  destruct Herrs as (_ & _ & _ & _ & [Hnone | (f' & Hf' & Hp)]); congruence.
Qed.

Lemma non_image_is_error req f :
  file req = Some f -> String.prefix "image/" (mimetype f) = false ->
  negb (bool_decide (validation_errors_spec req = [])) = true.
Proof.
  intros Hf Hp. apply negb_true_iff, bool_decide_eq_false. intros Herrs.
  pose proof (accepted_file_is_image req f Herrs Hf). congruence.
Qed.

(** X1. A create with valid input and a file sends the file, which is then an
    image, to the image host once, in the folder of the application and
    under no key of its own, stores the new item with the url that the host
    answers, and redirects to the url of the item. *)
Theorem create_with_image_uploads oid w req f :
  snd (Chain.run item_create_post_validators req) = [] ->
  file req = Some f ->
  let o := {| resource_type := "image"; folder := "wow_inventory";
              public_id := None; overwrite := None; invalidate := None |} in
  let url := secure_url (uploads w) (dataURI_of base64 f) o in
  let r := run_handler (item_create_post base64 secure_url item_url oid req) w in
  String.prefix "image/" (mimetype f) = true /\
  uploads (fst r) = uploads w ++ [ (dataURI_of base64 f, o) ] /\
  items (fst r) !! oid = Some (candidate oid req (Some url)) /\
  snd r = [ Redirect (item_url (candidate oid req (Some url))) ].
Proof.
  rewrite run_create_validators. cbn [snd]. intros Herrs Hf. cbn zeta.
  split; [by apply (accepted_file_is_image req)|].
  rewrite item_create_post_run, Hf.
  apply errors_empty_spec in Herrs. rewrite Herrs. cbn [fst snd items uploads].
  split; [reflexivity|]. split; [apply lookup_insert_eq | reflexivity].
Qed.

(** X2. An update that passes the gate with a file sends the file to the
    image host under the id of the item, to overwrite and invalidate what is
    there, and the stored item gets the url that the host answers and the
    sanitized fields, and keeps its identity. *)
Theorem update_with_image_overwrites w req f old :
  snd (Chain.run item_update_post_validators req) = [] ->
  body req !! "security_code" = Some "123" ->
  file req = Some f ->
  items w !! params_id req = Some old ->
  let o := {| resource_type := "image"; folder := "wow_inventory";
              public_id := Some (params_id req);
              overwrite := Some true; invalidate := Some true |} in
  let url := secure_url (uploads w) (dataURI_of base64 f) o in
  let r := run_handler (item_update_post base64 secure_url item_url req) w in
  uploads (fst r) = uploads w ++ [ (dataURI_of base64 f, o) ] /\
  items (fst r) !! params_id req
  = Some {| item_id := item_id old;
            item_name := sanitize (field_value req "name");
            item_description := sanitize (field_value req "description");
            item_quality := sanitize (field_value req "quality");
            item_slot := sanitize (field_value req "slot");
            item_imgUrl := Some url |} /\
  snd r = [ Redirect (item_url (candidate (params_id req) req (Some url))) ].
Proof.
  rewrite run_update_validators. cbn [snd]. intros Herrs Hcode Hf Hold. cbn zeta.
  apply errors_empty_spec in Herrs. apply right_security_code_spec in Hcode.
  rewrite item_update_post_run, Herrs, Hcode, Hf. cbn [orb fst snd items uploads].
  split; [reflexivity|]. split; [|reflexivity].
  rewrite lookup_alter_eq, Hold. reflexivity.
Qed.

(** X3. An update that passes the gate for an id that names no stored item
    creates nothing: the items are as they were, and the answer is a
    redirect all the same. *)
Theorem update_unknown_id_creates_nothing w req :
  snd (Chain.run item_update_post_validators req) = [] ->
  body req !! "security_code" = Some "123" ->
  items w !! params_id req = None ->
  let r := run_handler (item_update_post base64 secure_url item_url req) w in
  items (fst r) = items w /\
  exists url, snd r = [ Redirect url ].
Proof.
  rewrite run_update_validators. cbn [snd]. intros Herrs Hcode Hnone. cbn zeta.
  apply errors_empty_spec in Herrs. apply right_security_code_spec in Hcode.
  rewrite item_update_post_run, Herrs, Hcode. cbn [orb].
  destruct (file req) as [f|]; cbn [fst snd items].
  - split; [|eauto]. apply alter_id. intros x Hx. congruence.
  - split; [|eauto]. apply alter_id. intros x Hx. congruence.
Qed.

(** X4. Whatever the request, an update neither adds nor removes a record,
    leaves the items of the other ids as they are, and keeps the identity of
    the item it writes. *)
Theorem update_keeps_other_items w req :
  let r := run_handler (item_update_post base64 secure_url item_url req) w in
  dom (items (fst r)) = dom (items w) /\
  (forall k, k <> params_id req -> items (fst r) !! k = items w !! k) /\
  (forall old new,
     items w !! params_id req = Some old ->
     items (fst r) !! params_id req = Some new ->
     item_id new = item_id old).
Proof.
  cbn zeta. rewrite item_update_post_run.
  destruct (_ || _).
  - cbn [fst]. split; [reflexivity|]. split; [reflexivity|].
    intros old new H1 H2. congruence.
  - destruct (file req) as [f|]; cbn [fst items].
    + split; [apply dom_alter_L|]. split.
      * intros k Hk. by rewrite lookup_alter_ne.
      * intros old new H1 H2. rewrite lookup_alter_eq, H1 in H2.
        injection H2 as <-. reflexivity.
    + split; [apply dom_alter_L|]. split.
      * intros k Hk. by rewrite lookup_alter_ne.
      * intros old new H1 H2. rewrite lookup_alter_eq, H1 in H2.
        injection H2 as <-. reflexivity.
Qed.

(** X5. A file that is not an image is never sent to the image host: a
    create or an update that carries one leaves the store, uploads included,
    as it was, whatever the fields and the security code. *)
Theorem non_image_file_never_uploaded oid w req f :
  file req = Some f ->
  String.prefix "image/" (mimetype f) = false ->
  fst (run_handler (item_create_post base64 secure_url item_url oid req) w) = w /\
  fst (run_handler (item_update_post base64 secure_url item_url req) w) = w.
Proof.
  intros Hf Hp. pose proof (non_image_is_error req f Hf Hp) as Herr.
  rewrite item_create_post_run, item_update_post_run, Herr. cbn [orb fst]. done.
Qed.

(** X6. No handler of the write pipeline writes to the instances or to the
    slots: a delete of an item removes none of its instances. *)
Theorem pipeline_keeps_instances_and_slots oid w req :
  let same (w' : World) :=
    itemInstances w' = itemInstances w /\ slots w' = slots w in
  same (fst (run_handler (item_create_post base64 secure_url item_url oid req) w)) /\
  same (fst (run_handler (item_update_post base64 secure_url item_url req) w)) /\
  same (fst (run_handler (item_delete_post req) w)) /\
  same (fst (run_handler (item_delete_get req) w)).
Proof.
  cbn zeta.
  rewrite item_create_post_run, item_update_post_run, item_delete_post_run,
    item_delete_get_run.
  repeat split;
    repeat match goal with
           | |- context [if ?b then _ else _] => destruct b
           | |- context [match file req with _ => _ end] => destruct (file req)
           end; reflexivity.
Qed.

End Pipeline.

Section PipelineInvariants.

Variable base64 : string -> string.
Variable secure_url : list (string * UploadOptions) -> string -> UploadOptions -> string.
Variable item_url : Item -> string.

Implicit Types (w : World) (req : Request).

Lemma updated_sanitized old new :
  item_html_safe new /\ item_well_sized new ->
  item_html_safe (ItemModel.updated old new) /\ item_well_sized (ItemModel.updated old new).
Proof. intros H. exact H. Qed.

Lemma accepted_candidate_sanitized id req img :
  negb (bool_decide (validation_errors_spec req = [])) = false ->
  item_html_safe (candidate id req img) /\ item_well_sized (candidate id req img).
Proof.
  intros Herrs. apply errors_empty_spec, validation_errors_nil in Herrs.
  split; [apply candidate_html_safe | by apply candidate_well_sized].
Qed.

Lemma alter_sanitized (m : gmap string Item) id new :
  item_html_safe new /\ item_well_sized new ->
  map_Forall (fun _ i => item_html_safe i /\ item_well_sized i) m ->
  map_Forall (fun _ i => item_html_safe i /\ item_well_sized i)
    (alter (fun old => ItemModel.updated old new) id m).
Proof.
  intros Hnew Hm k x Hk.
  destruct (decide (k = id)) as [->|Hne].
  - rewrite lookup_alter_eq in Hk. destruct (m !! id) as [old|]; [|discriminate].
    injection Hk as <-. by apply updated_sanitized.
  - rewrite lookup_alter_ne in Hk by done. exact (Hm k x Hk).
Qed.

(** X7. The handlers of the write pipeline keep the store sanitized: when
    the text fields of every stored item are free of the characters that
    [escape] replaces and have the lengths that the validation asks for,
    they still are after a create, an update or a delete, whatever the
    request. *)
Theorem pipeline_keeps_store_sanitized oid w req :
  store_sanitized w ->
  store_sanitized (fst (run_handler (item_create_post base64 secure_url item_url oid req) w)) /\
  store_sanitized (fst (run_handler (item_update_post base64 secure_url item_url req) w)) /\
  store_sanitized (fst (run_handler (item_delete_post req) w)) /\
  store_sanitized (fst (run_handler (item_delete_get req) w)).
Proof.
  unfold store_sanitized. intros Hw.
  rewrite item_create_post_run, item_update_post_run, item_delete_post_run,
    item_delete_get_run.
  split; [|split; [|split]].
  - destruct (negb _) eqn:Herrs; [exact Hw|].
    destruct (file req) as [f|]; cbn [fst items];
      (apply map_Forall_insert_2; [by apply accepted_candidate_sanitized | exact Hw]).
  - destruct (negb _) eqn:Herrs; cbn [orb]; [exact Hw|].
    destruct (wrong_security_code req); [exact Hw|].
    destruct (file req) as [f|]; cbn [fst items];
      (apply alter_sanitized; [by apply accepted_candidate_sanitized | exact Hw]).
  - destruct (_ || _); cbn [fst items]; [exact Hw|].
    destruct (body req !! "itemid") as [k|]; cbn [from_option]; [|exact Hw].
    by apply map_Forall_delete.
  - exact Hw.
Qed.

Lemma blank_is_error req :
  blank (field_value req "name") = true \/
  blank (field_value req "description") = true \/
  blank (field_value req "quality") = true \/
  blank (field_value req "slot") = true ->
  negb (bool_decide (validation_errors_spec req = [])) = true.
Proof.
  intros Hblank. apply negb_true_iff, bool_decide_eq_false. intros Herrs.
  apply validation_errors_nil in Herrs. destruct Herrs as (Hn & Hd & Hq & Hs & _).
  destruct Hblank as [H|[H|[H|H]]]; apply trim_blank in H;
    rewrite H in *; cbn in *; lia.
Qed.

(** X8. A field made of whitespace only counts as empty: a create or an
    update in which the name, the description, the quality or the slot is
    blank is refused, and the store is left as it was. *)
Theorem blank_field_is_refused oid w req :
  blank (field_value req "name") = true \/
  blank (field_value req "description") = true \/
  blank (field_value req "quality") = true \/
  blank (field_value req "slot") = true ->
  (fst (run_handler (item_create_post base64 secure_url item_url oid req) w) = w /\
   exists locals,
     snd (run_handler (item_create_post base64 secure_url item_url oid req) w)
     = [ Render "item_form" locals ]) /\
  (fst (run_handler (item_update_post base64 secure_url item_url req) w) = w /\
   exists locals,
     snd (run_handler (item_update_post base64 secure_url item_url req) w)
     = [ Render "item_form" locals ]).
Proof.
  intros Hblank. pose proof (blank_is_error req Hblank) as Herr.
  rewrite item_create_post_run, item_update_post_run, Herr. cbn [orb fst snd].
  split; (split; [reflexivity | eauto]).
Qed.

(** X9. A refused create echoes safe values: the item handed to the form is
    the candidate under the new id, without an imgUrl, and its text fields
    are free of the characters that [escape] replaces, whatever was
    submitted. *)
Theorem create_refused_echoes_safe_candidate oid w req :
  snd (Chain.run item_create_post_validators req) <> [] ->
  exists echoed errs,
    snd (run_handler (item_create_post base64 secure_url item_url oid req) w)
    = [ Render "item_form"
          [ ("title", LString "Create Item");
            ("slots", LSlots (slots w));
            ("item", LNewItem echoed);
            ("errors", LErrors errs) ] ] /\
    item_id echoed = oid /\
    item_imgUrl echoed = None /\
    item_html_safe echoed.
Proof.
  rewrite run_create_validators. cbn [snd]. intros Herrs.
  rewrite item_create_post_run.
  destruct (negb _) eqn:E; [|apply errors_empty_spec in E; contradiction].
  cbn [snd]. eexists _, _. split; [reflexivity|].
  split; [reflexivity|]. split; [reflexivity|]. apply candidate_html_safe.
Qed.

(** X10. A delete that passes the gate while its form names an id that no
    stored item has removes nothing and still answers with the redirect to
    the item list. *)
Theorem delete_unknown_itemid_removes_nothing w req k :
  instance_count w (params_id req) = 0 ->
  body req !! "security_code" = Some "123" ->
  body req !! "itemid" = Some k ->
  items w !! k = None ->
  run_handler (item_delete_post req) w = (w, [ Redirect "/catalog/items" ]).
Proof.
  intros Hcount Hcode Hid Hk. apply right_security_code_spec in Hcode.
  rewrite item_delete_post_run, Hcount, Hcode, Hid. cbn [orb Nat.ltb Nat.leb from_option].
  f_equal. destruct w as [its ins sls ups]; cbn in *. f_equal.
  by apply delete_id.
Qed.

(** X11. Create and delete are inverse on the items: after an accepted create
    under a fresh id that no instance references, the delete of that id with
    the right code gives back the items as they were before the create, and
    the whole store when the create carried no file. *)
Theorem create_then_delete_restores_items oid w creq dreq :
  items w !! oid = None ->
  instance_count w oid = 0 ->
  snd (Chain.run item_create_post_validators creq) = [] ->
  params_id dreq = oid ->
  body dreq !! "itemid" = Some oid ->
  body dreq !! "security_code" = Some "123" ->
  let created :=
    fst (run_handler (item_create_post base64 secure_url item_url oid creq) w) in
  let r := run_handler (item_delete_post dreq) created in
  is_Some (items created !! oid) /\
  items (fst r) = items w /\
  snd r = [ Redirect "/catalog/items" ] /\
  (file creq = None -> fst r = w).
Proof.
  rewrite run_create_validators. cbn [snd].
  intros Hfresh Hcount Herrs Hparam Hid Hcode. cbn zeta.
  apply errors_empty_spec in Herrs. apply right_security_code_spec in Hcode.
  rewrite item_create_post_run, Herrs.
  rewrite item_delete_post_run, Hparam, Hid, Hcode.
  destruct w as [its ins sls ups].
  destruct (file creq) as [f|]; cbn [fst snd items itemInstances slots uploads] in *.
  - unfold instance_count in *. cbn [itemInstances] in *. rewrite Hcount.
    cbn [orb Nat.ltb Nat.leb fst snd items from_option].
    split; [rewrite lookup_insert_eq; eauto|].
    split; [by apply delete_insert_id|]. split; [reflexivity | discriminate].
  - unfold instance_count in *. cbn [itemInstances] in *. rewrite Hcount.
    cbn [orb Nat.ltb Nat.leb fst snd items from_option].
    split; [rewrite lookup_insert_eq; eauto|].
    split; [by apply delete_insert_id|]. split; [reflexivity|].
    intros _. f_equal. by apply delete_insert_id.
Qed.

End PipelineInvariants.

Section PipelineGates.

Variable base64 : string -> string.
Variable secure_url : list (string * UploadOptions) -> string -> UploadOptions -> string.
Variable item_url : Item -> string.

Implicit Types (w : World) (req : Request).

Lemma updated_twice old new :
  ItemModel.updated (ItemModel.updated old new) new = ItemModel.updated old new.
Proof. unfold ItemModel.updated; cbn. by destruct (item_imgUrl new). Qed.

Lemma alter_updated_twice (m : gmap string Item) id new :
  alter (fun old => ItemModel.updated old new) id
    (alter (fun old => ItemModel.updated old new) id m)
  = alter (fun old => ItemModel.updated old new) id m.
Proof.
  apply map_eq. intros k. destruct (decide (k = id)) as [->|Hne].
  - rewrite !lookup_alter_eq. destruct (m !! id); cbn; [|reflexivity].
    by rewrite updated_twice.
  - by rewrite !lookup_alter_ne.
Qed.

(** X12. An accepted update without a file is idempotent: run again on the
    store it leaves, the same request leaves the same store and makes the
    same redirect. *)
Theorem accepted_update_without_file_idempotent w req :
  snd (Chain.run item_update_post_validators req) = [] ->
  body req !! "security_code" = Some "123" ->
  file req = None ->
  let r := run_handler (item_update_post base64 secure_url item_url req) w in
  run_handler (item_update_post base64 secure_url item_url req) (fst r) = r.
Proof.
  rewrite run_update_validators. cbn [snd]. intros Herrs Hcode Hfile. cbn zeta.
  apply errors_empty_spec in Herrs. apply right_security_code_spec in Hcode.
  rewrite !item_update_post_run, Herrs, Hcode, Hfile.
  cbn [orb fst items itemInstances slots uploads].
  by rewrite alter_updated_twice.
Qed.

(** X13. The answer of an update is a redirect exactly when the validation
    gives no error and the security code is the expected one; it is the
    item form otherwise. *)
Theorem update_redirects_iff_accepted w req :
  let r := run_handler (item_update_post base64 secure_url item_url req) w in
  ((exists url, snd r = [ Redirect url ])
     <-> snd (Chain.run item_update_post_validators req) = []
         /\ body req !! "security_code" = Some "123") /\
  ((exists locals, snd r = [ Render "item_form" locals ])
     <-> snd (Chain.run item_update_post_validators req) <> []
         \/ body req !! "security_code" <> Some "123").
Proof.
  cbn zeta. rewrite run_update_validators, item_update_post_run. cbn [snd].
  destruct (negb _) eqn:Herrs; cbn [orb snd].
  - apply negb_true_iff, bool_decide_eq_false in Herrs. split; split.
    + intros [url [=]].
    + intros [? _]. contradiction.
    + intros _. by left.
    + eauto.
  - apply errors_empty_spec in Herrs.
    destruct (wrong_security_code req) eqn:Hcode; cbn [snd].
    + apply wrong_security_code_spec in Hcode. split; split.
      * intros [url [=]].
      * intros [_ ?]. contradiction.
      * intros _. by right.
      * eauto.
    + apply right_security_code_spec in Hcode. split; split.
      * intros _. done.
      * intros _. destruct (file req); cbn [snd]; eauto.
      * intros [locals H]. destruct (file req); cbn [snd] in H; discriminate.
      * intros [?|?]; contradiction.
Qed.

(** X14. The answer of a create is a redirect exactly when the request
    violates none of the rules of the validation, and the create persists
    nothing otherwise. *)
Theorem create_redirects_iff_compliant oid w req :
  let r := run_handler (item_create_post base64 secure_url item_url oid req) w in
  ((exists url, snd r = [ Redirect url ]) <-> spec_compliant req) /\
  (~ spec_compliant req -> fst r = w) /\
  (spec_compliant req -> is_Some (items (fst r) !! oid)).
Proof.
  cbn zeta. rewrite item_create_post_run.
  destruct (negb _) eqn:Herrs; cbn [fst snd].
  - apply negb_true_iff, bool_decide_eq_false in Herrs.
    rewrite validation_errors_nil in Herrs.
    split; [|split]; [split|..]; try done. intros [url [=]].
  - apply errors_empty_spec, validation_errors_nil in Herrs.
    split; [|split]; [split|..]; try done.
    + intros _. destruct (file req); cbn [snd]; eauto.
    + intros _. destruct (file req); cbn [fst items]; rewrite lookup_insert_eq; eauto.
Qed.

(** X25. The answer of a delete is the redirect to the item list exactly when
    no instance references the item of the route and the security code is
    the expected one; it is the confirmation page otherwise, and the store
    is then left as it was. *)
Theorem delete_redirects_iff_gate_passes w req :
  let r := run_handler (item_delete_post req) w in
  (snd r = [ Redirect "/catalog/items" ]
     <-> instance_count w (params_id req) = 0
         /\ body req !! "security_code" = Some "123") /\
  ((exists locals, snd r = [ Render "item_delete" locals ])
     <-> 0 < instance_count w (params_id req)
         \/ body req !! "security_code" <> Some "123") /\
  ((exists locals, snd r = [ Render "item_delete" locals ]) -> fst r = w).
Proof.
  cbn zeta. rewrite item_delete_post_run.
  destruct (Nat.ltb 0 _) eqn:Hcount; cbn [orb fst snd].
  - apply Nat.ltb_lt in Hcount. split; [|split]; [split|split|done].
    + discriminate.
    + intros [? _]. lia.
    + intros _. by left.
    + eauto.
  - apply Nat.ltb_ge in Hcount.
    destruct (wrong_security_code req) eqn:Hcode; cbn [fst snd].
    + apply wrong_security_code_spec in Hcode. split; [|split]; [split|split|done].
      * discriminate.
      * intros [_ ?]. contradiction.
      * intros _. by right.
      * eauto.
    + apply right_security_code_spec in Hcode. split; [|split]; [split|split|].
      * intros _. split; [lia | exact Hcode].
      * reflexivity.
      * intros [locals [=]].
      * intros [?|?]; [lia | contradiction].
      * intros [locals [=]].
Qed.

(** X15. The three POST handlers answer once: whatever the request and the
    store, each makes exactly one call on the response. *)
Theorem post_handlers_answer_once oid w req :
  length (snd (run_handler (item_create_post base64 secure_url item_url oid req) w)) = 1 /\
  length (snd (run_handler (item_update_post base64 secure_url item_url req) w)) = 1 /\
  length (snd (run_handler (item_delete_post req) w)) = 1.
Proof.
  rewrite item_create_post_run, item_update_post_run, item_delete_post_run.
  repeat split;
    repeat match goal with
           | |- context [if ?b then _ else _] => destruct b
           | |- context [match file req with _ => _ end] => destruct (file req)
           end; reflexivity.
Qed.

(** X16. An update refused for its fields alone, the security code being the
    expected one, shows no message about the code: the form is rendered with
    the errors of the fields and an empty error text. *)
Theorem update_invalid_fields_right_code w req :
  snd (Chain.run item_update_post_validators req) <> [] ->
  body req !! "security_code" = Some "123" ->
  run_handler (item_update_post base64 secure_url item_url req) w
  = (w, [ Render "item_form"
            [ ("title", LString "Update Item");
              ("item", LPopulatedItem
                         (ItemModel.populate_slot w <$> items w !! params_id req));
              ("slots", LSlots (merge_sort SlotModel.name_le (slots w)));
              ("errors", LErrors (snd (Chain.run item_update_post_validators req)));
              ("code", LField (Some "123"));
              ("form_type", LString "update");
              ("error", LString "") ] ]).
Proof.
  rewrite run_update_validators. cbn [snd]. intros Herrs Hcode.
  rewrite item_update_post_run, Hcode.
  apply right_security_code_spec in Hcode. rewrite Hcode, orb_false_r.
  destruct (negb _) eqn:E; [reflexivity|].
  apply errors_empty_spec in E. contradiction.
Qed.

End PipelineGates.

(** ** The read handlers *)

Section Pages.

Variable base64 : string -> string.
Variable secure_url : list (string * UploadOptions) -> string -> UploadOptions -> string.
Variable item_url : Item -> string.
Variable sellers : gmap string Seller.

Implicit Types (w : World) (req : Request).

(** X17. On the home page the count of the instances in stock never exceeds
    the count of the instances. *)
Theorem index_stock_count_bounded w :
  exists in_stock instances,
    page_number (index sellers w) "item_instance_stock_count" = Some in_stock /\
    page_number (index sellers w) "item_instance_count" = Some instances /\
    in_stock <= instances.
Proof.
  eexists _, _. split; [reflexivity|]. split; [reflexivity|].
  apply List.filter_length_le.
Qed.

(** X18. An accepted create under a fresh id raises the item count of the
    home page by one and leaves its other counts as they were. *)
Theorem create_raises_item_count oid w req n :
  items w !! oid = None ->
  snd (Chain.run item_create_post_validators req) = [] ->
  page_number (index sellers w) "item_count" = Some n ->
  let w' := fst (run_handler (item_create_post base64 secure_url item_url oid req) w) in
  page_number (index sellers w') "item_count" = Some (S n) /\
  (forall key, key <> "item_count" ->
     page_number (index sellers w') key = page_number (index sellers w) key).
Proof.
  rewrite run_create_validators. cbn [snd]. intros Hfresh Herrs Hn. cbn zeta.
  apply errors_empty_spec in Herrs. rewrite item_create_post_run, Herrs.
  injection Hn as <-.
  destruct (file req) as [f|]; cbn [fst].
  - split.
    + cbn. by rewrite map_size_insert_None.
    + intros key Hkey. unfold index, page_number. cbn [items itemInstances slots].
      cbn [List.find fst].
      repeat match goal with
             | |- context [bool_decide (?a = key)] =>
                 destruct (decide (a = key)) as [Heq|Hne];
                 [ rewrite !(bool_decide_eq_true_2 _ Heq)
                 | rewrite !(bool_decide_eq_false_2 _ Hne); clear Hne ];
                 [ first [reflexivity | by destruct Hkey] | ]
             end.
      reflexivity.
  - split.
    + cbn. by rewrite map_size_insert_None.
    + intros key Hkey. unfold index, page_number. cbn [items itemInstances slots].
      cbn [List.find fst].
      repeat match goal with
             | |- context [bool_decide (?a = key)] =>
                 destruct (decide (a = key)) as [Heq|Hne];
                 [ rewrite !(bool_decide_eq_true_2 _ Heq)
                 | rewrite !(bool_decide_eq_false_2 _ Hne); clear Hne ];
                 [ first [reflexivity | by destruct Hkey] | ]
             end.
      reflexivity.
Qed.

End Pages.

Section PagesAfterWrites.

Variable base64 : string -> string.
Variable secure_url : list (string * UploadOptions) -> string -> UploadOptions -> string.
Variable item_url : Item -> string.
Variable sellers : gmap string Seller.

Implicit Types (w : World) (req : Request).

Global Instance name_le_total : Total SlotModel.name_le.
Proof. intros a b. unfold SlotModel.name_le. apply (total String.le). Qed.

Global Instance quality_le_total : Total quality_le.
Proof. intros a b. unfold quality_le. apply (total String.le). Qed.

Lemma elem_of_filter_item (l : list ItemInstance) id i :
  i ∈ List.filter (fun i => bool_decide (instance_item i = id)) l
  <-> i ∈ l /\ instance_item i = id.
Proof.
  rewrite !list_elem_of_In, List.filter_In, bool_decide_eq_true. reflexivity.
Qed.

Lemma si_doc_populate_seller (l : list ItemInstance) :
  si_doc <$> (populate_seller sellers <$> l) = l.
Proof. induction l as [|i l IH]; cbn; [reflexivity | by rewrite IH]. Qed.

(** X19. An accepted delete of a stored item lowers the item count of the
    home page by one. *)
Theorem delete_lowers_item_count w req k it n :
  instance_count w (params_id req) = 0 ->
  body req !! "security_code" = Some "123" ->
  body req !! "itemid" = Some k ->
  items w !! k = Some it ->
  page_number (index sellers w) "item_count" = Some n ->
  let w' := fst (run_handler (item_delete_post req) w) in
  0 < n /\ page_number (index sellers w') "item_count" = Some (n - 1).
Proof.
  intros Hcount Hcode Hid Hit Hn. cbn zeta.
  apply right_security_code_spec in Hcode.
  rewrite item_delete_post_run, Hcount, Hcode, Hid.
  cbn [orb Nat.ltb Nat.leb fst from_option].
  injection Hn as <-. cbn.
  rewrite map_size_delete_Some by eauto.
  assert (size (items w) <> 0) as Hsize.
  { intros H0. apply map_size_empty_iff in H0. rewrite H0 in Hit.
    by rewrite lookup_empty in Hit. }
  split; [lia|]. f_equal. lia.
Qed.

(** X20. The detail page answers 404 exactly when no item has the id of the
    route; for a stored item it shows the item with its slot, and the
    instances it lists are exactly the instances of the store that reference
    the item, in the order of the store, each with its seller. *)
Theorem item_detail_lists_instances_of_item w req :
  (item_detail sellers w req
   = NextError {| err_message := "Item not found"; err_status := 404 |}
   <-> items w !! params_id req = None) /\
  (forall it, items w !! params_id req = Some it ->
     exists shown,
       item_detail sellers w req
       = Page "item_detail"
           [ ("title", PString "Item Detail");
             ("item", PPopulatedItem (ItemModel.populate_slot w it));
             ("itemInstances", PSoldInstances shown) ] /\
       (forall i, i ∈ si_doc <$> shown
                  <-> i ∈ itemInstances w /\ instance_item i = params_id req) /\
       (forall s, s ∈ shown -> si_seller s = sellers !! instance_seller (si_doc s))).
Proof.
  unfold item_detail. split.
  - destruct (items w !! params_id req); cbn; split; congruence.
  - intros it ->. cbn. eexists. split; [reflexivity|]. split.
    + intros i. rewrite si_doc_populate_seller. apply elem_of_filter_item.
    + intros s (i & -> & _)%list_elem_of_fmap. reflexivity.
Qed.

(** X21. The update form answers 404 exactly when no item has the id of the
    route; for a stored item it offers the slots of the store, each once, in
    the order of their names. *)
Theorem item_update_get_sorts_slots w req :
  (item_update_get w req
   = NextError {| err_message := "Item not found"; err_status := 404 |}
   <-> items w !! params_id req = None) /\
  (forall it, items w !! params_id req = Some it ->
     exists offered,
       item_update_get w req
       = Page "item_form"
           [ ("title", PString "Update Item");
             ("item", PPopulatedItem (ItemModel.populate_slot w it));
             ("slots", PSlots offered);
             ("form_type", PString "update") ] /\
       Sorted SlotModel.name_le offered /\
       offered ≡ₚ slots w).
Proof.
  unfold item_update_get. split.
  - destruct (items w !! params_id req); cbn; split; congruence.
  - intros it ->. cbn. eexists. split; [reflexivity|]. split.
    + apply (Sorted_merge_sort _).
    + apply merge_sort_Permutation.
Qed.

(** X22. The item list shows every stored item once, by increasing
    quality. *)
Theorem item_list_sorted_by_quality w :
  exists shown,
    item_list w
    = Page "item_list"
        [ ("title", PString "Item List"); ("item_list", PListedItems shown) ] /\
    Sorted (fun a b => String.le (li_quality a) (li_quality b)) shown /\
    length shown = size (items w) /\
    (forall x, x ∈ shown <-> exists k it, items w !! k = Some it /\ x = listed w it).
Proof.
  unfold item_list. eexists. split; [reflexivity|]. split; [|split].
  - apply (Sorted_fmap _ quality_le); [|apply (Sorted_merge_sort _)].
    intros a b H. exact H.
  - rewrite length_fmap, merge_sort_Permutation, length_fmap.
    apply length_map_to_list.
  - intros x. rewrite list_elem_of_fmap. split.
    + intros (it & -> & Hit). rewrite merge_sort_Permutation in Hit.
      apply list_elem_of_fmap in Hit as ([k it'] & -> & Hk).
      apply elem_of_map_to_list in Hk. eauto.
    + intros (k & it & Hk & ->). exists it. split; [reflexivity|].
      rewrite merge_sort_Permutation. apply list_elem_of_fmap.
      exists (k, it). split; [reflexivity|]. by apply elem_of_map_to_list.
Qed.

(** X23. A deleted item is gone for the read handlers: after an accepted
    delete of the item that the form names, the detail page and the update
    form of that item answer 404, and its delete confirmation calls the
    redirect to the item list first. *)
Theorem deleted_item_is_not_found w req gone k :
  instance_count w (params_id req) = 0 ->
  body req !! "security_code" = Some "123" ->
  body req !! "itemid" = Some k ->
  params_id gone = k ->
  let w' := fst (run_handler (item_delete_post req) w) in
  item_detail sellers w' gone
  = NextError {| err_message := "Item not found"; err_status := 404 |} /\
  item_update_get w' gone
  = NextError {| err_message := "Item not found"; err_status := 404 |} /\
  head (snd (run_handler (item_delete_get gone) w')) = Some (Redirect "/catalog/items").
Proof.
  intros Hcount Hcode Hid Hgone. cbn zeta.
  apply right_security_code_spec in Hcode.
  rewrite item_delete_post_run, Hcount, Hcode, Hid.
  cbn [orb Nat.ltb Nat.leb fst from_option].
  rewrite item_delete_get_run.
  unfold item_detail, item_update_get. cbn [items].
  rewrite Hgone, lookup_delete_eq.
  rewrite bool_decide_eq_true_2 by reflexivity. done.
Qed.

(** X24. A created item is what its detail page shows: after an accepted
    create, the detail page of the new id shows the candidate built from the
    sanitized fields, with the slot that its reference names. *)
Theorem created_item_is_shown oid w req shown_req :
  snd (Chain.run item_create_post_validators req) = [] ->
  params_id shown_req = oid ->
  let w' := fst (run_handler (item_create_post base64 secure_url item_url oid req) w) in
  exists img shown,
    item_detail sellers w' shown_req
    = Page "item_detail"
        [ ("title", PString "Item Detail");
          ("item", PPopulatedItem (ItemModel.populate_slot w (candidate oid req img)));
          ("itemInstances", PSoldInstances shown) ] /\
    (file req = None -> img = Some "#").
Proof.
  rewrite run_create_validators. cbn [snd]. intros Herrs Hshown. cbn zeta.
  apply errors_empty_spec in Herrs. rewrite item_create_post_run, Herrs.
  unfold item_detail. rewrite Hshown.
  destruct (file req) as [f|]; cbn [fst items]; rewrite lookup_insert_eq; cbn.
  - eexists _, _. split; [reflexivity | discriminate].
  - eexists _, _. split; [reflexivity | reflexivity].
Qed.

End PagesAfterWrites.

(** ** The further theorems on the sample store *)

Lemma create_with_image_uploads_witness :
  snd (Chain.run item_create_post_validators Sample.create_with_image) = [] /\
  file Sample.create_with_image = Some Sample.png /\
  let o := {| resource_type := "image"; folder := "wow_inventory";
              public_id := None; overwrite := None; invalidate := None |} in
  let url := Demo.secure_url (uploads Demo.store) (dataURI_of Demo.base64 Sample.png) o in
  let r := run_handler
             (item_create_post Demo.base64 Demo.secure_url Demo.item_url "i3"
                Sample.create_with_image) Demo.store in
  String.prefix "image/" (mimetype Sample.png) = true /\
  uploads (fst r) = uploads Demo.store ++ [ (dataURI_of Demo.base64 Sample.png, o) ] /\
  items (fst r) !! "i3" = Some (candidate "i3" Sample.create_with_image (Some url)) /\
  snd r = [ Redirect (Demo.item_url (candidate "i3" Sample.create_with_image (Some url))) ].
Proof.
  split; [vm_compute; reflexivity|]. split; [reflexivity|].
  apply (create_with_image_uploads Demo.base64 Demo.secure_url Demo.item_url
           "i3" Demo.store Sample.create_with_image Sample.png).
  - vm_compute. reflexivity.
  - reflexivity.
Defined.

Lemma update_with_image_overwrites_witness :
  snd (Chain.run item_update_post_validators Sample.update_with_image) = [] /\
  body Sample.update_with_image !! "security_code" = Some "123" /\
  file Sample.update_with_image = Some Sample.png /\
  items Demo.store !! params_id Sample.update_with_image = Some Demo.sword /\
  let o := {| resource_type := "image"; folder := "wow_inventory";
              public_id := Some (params_id Sample.update_with_image);
              overwrite := Some true; invalidate := Some true |} in
  let url := Demo.secure_url (uploads Demo.store) (dataURI_of Demo.base64 Sample.png) o in
  let r := run_handler
             (item_update_post Demo.base64 Demo.secure_url Demo.item_url
                Sample.update_with_image) Demo.store in
  uploads (fst r) = uploads Demo.store ++ [ (dataURI_of Demo.base64 Sample.png, o) ] /\
  items (fst r) !! params_id Sample.update_with_image
  = Some {| item_id := item_id Demo.sword;
            item_name := sanitize (field_value Sample.update_with_image "name");
            item_description := sanitize (field_value Sample.update_with_image "description");
            item_quality := sanitize (field_value Sample.update_with_image "quality");
            item_slot := sanitize (field_value Sample.update_with_image "slot");
            item_imgUrl := Some url |} /\
  snd r = [ Redirect (Demo.item_url
                        (candidate (params_id Sample.update_with_image)
                           Sample.update_with_image (Some url))) ].
Proof.
  split; [vm_compute; reflexivity|]. split; [vm_compute; reflexivity|].
  split; [reflexivity|]. split; [vm_compute; reflexivity|].
  apply (update_with_image_overwrites Demo.base64 Demo.secure_url Demo.item_url
           Demo.store Sample.update_with_image Sample.png Demo.sword).
  - vm_compute. reflexivity.
  - vm_compute. reflexivity.
  - reflexivity.
  - vm_compute. reflexivity.
Defined.

Lemma update_unknown_id_creates_nothing_witness :
  snd (Chain.run item_update_post_validators Sample.update_unknown) = [] /\
  body Sample.update_unknown !! "security_code" = Some "123" /\
  items Demo.store !! params_id Sample.update_unknown = None /\
  let r := run_handler
             (item_update_post Demo.base64 Demo.secure_url Demo.item_url
                Sample.update_unknown) Demo.store in
  items (fst r) = items Demo.store /\
  exists url, snd r = [ Redirect url ].
Proof.
  split; [vm_compute; reflexivity|]. split; [vm_compute; reflexivity|].
  split; [vm_compute; reflexivity|].
  apply (update_unknown_id_creates_nothing Demo.base64 Demo.secure_url Demo.item_url
           Demo.store Sample.update_unknown).
  - vm_compute. reflexivity.
  - vm_compute. reflexivity.
  - vm_compute. reflexivity.
Defined.

Lemma non_image_file_never_uploaded_witness :
  file Sample.update_with_pdf = Some Sample.pdf /\
  String.prefix "image/" (mimetype Sample.pdf) = false /\
  fst (run_handler
         (item_create_post Demo.base64 Demo.secure_url Demo.item_url "i3"
            Sample.update_with_pdf) Demo.store) = Demo.store /\
  fst (run_handler
         (item_update_post Demo.base64 Demo.secure_url Demo.item_url
            Sample.update_with_pdf) Demo.store) = Demo.store.
Proof.
  split; [reflexivity|]. split; [vm_compute; reflexivity|].
  apply (non_image_file_never_uploaded Demo.base64 Demo.secure_url Demo.item_url
           "i3" Demo.store Sample.update_with_pdf Sample.pdf).
  - reflexivity.
  - vm_compute. reflexivity.
Defined.

Lemma demo_store_sanitized : store_sanitized Demo.store.
Proof.
  unfold store_sanitized, Demo.store; cbn [items].
  apply map_Forall_insert_2; [|apply map_Forall_insert_2; [|apply map_Forall_empty]].
  - split; repeat split; vm_compute; lia || reflexivity.
  - split; repeat split; vm_compute; lia || reflexivity.
Defined.

Lemma pipeline_keeps_store_sanitized_witness :
  store_sanitized Demo.store /\
  store_sanitized
    (fst (run_handler
            (item_create_post Demo.base64 Demo.secure_url Demo.item_url "i3"
               Sample.create_markup) Demo.store)) /\
  store_sanitized
    (fst (run_handler
            (item_update_post Demo.base64 Demo.secure_url Demo.item_url
               Sample.create_markup) Demo.store)) /\
  store_sanitized (fst (run_handler (item_delete_post Sample.create_markup) Demo.store)) /\
  store_sanitized (fst (run_handler (item_delete_get Sample.create_markup) Demo.store)).
Proof.
  split; [exact demo_store_sanitized|].
  apply (pipeline_keeps_store_sanitized Demo.base64 Demo.secure_url Demo.item_url
           "i3" Demo.store Sample.create_markup).
  exact demo_store_sanitized.
Defined.

Lemma blank_field_is_refused_witness :
  (blank (field_value Demo.create_no_name "name") = true \/
   blank (field_value Demo.create_no_name "description") = true \/
   blank (field_value Demo.create_no_name "quality") = true \/
   blank (field_value Demo.create_no_name "slot") = true) /\
  (fst (run_handler
          (item_create_post Demo.base64 Demo.secure_url Demo.item_url "i3"
             Demo.create_no_name) Demo.store) = Demo.store /\
   exists locals,
     snd (run_handler
            (item_create_post Demo.base64 Demo.secure_url Demo.item_url "i3"
               Demo.create_no_name) Demo.store)
     = [ Render "item_form" locals ]) /\
  (fst (run_handler
          (item_update_post Demo.base64 Demo.secure_url Demo.item_url
             Demo.create_no_name) Demo.store) = Demo.store /\
   exists locals,
     snd (run_handler
            (item_update_post Demo.base64 Demo.secure_url Demo.item_url
               Demo.create_no_name) Demo.store)
     = [ Render "item_form" locals ]).
Proof.
  split; [left; vm_compute; reflexivity|].
  apply (blank_field_is_refused Demo.base64 Demo.secure_url Demo.item_url
           "i3" Demo.store Demo.create_no_name).
  left. vm_compute. reflexivity.
Defined.

Lemma create_refused_echoes_safe_candidate_witness :
  snd (Chain.run item_create_post_validators Sample.create_with_pdf) <> [] /\
  exists echoed errs,
    snd (run_handler
           (item_create_post Demo.base64 Demo.secure_url Demo.item_url "i3"
              Sample.create_with_pdf) Demo.store)
    = [ Render "item_form"
          [ ("title", LString "Create Item");
            ("slots", LSlots (slots Demo.store));
            ("item", LNewItem echoed);
            ("errors", LErrors errs) ] ] /\
    item_id echoed = "i3" /\
    item_imgUrl echoed = None /\
    item_html_safe echoed.
Proof.
  split; [vm_compute; discriminate|].
  apply (create_refused_echoes_safe_candidate Demo.base64 Demo.secure_url Demo.item_url
           "i3" Demo.store Sample.create_with_pdf).
  vm_compute. discriminate.
Defined.

Lemma delete_unknown_itemid_removes_nothing_witness :
  instance_count Demo.store (params_id Sample.delete_unknown_itemid) = 0 /\
  body Sample.delete_unknown_itemid !! "security_code" = Some "123" /\
  body Sample.delete_unknown_itemid !! "itemid" = Some "i9" /\
  items Demo.store !! "i9" = None /\
  run_handler (item_delete_post Sample.delete_unknown_itemid) Demo.store
  = (Demo.store, [ Redirect "/catalog/items" ]).
Proof.
  split; [vm_compute; reflexivity|]. split; [vm_compute; reflexivity|].
  split; [vm_compute; reflexivity|]. split; [vm_compute; reflexivity|].
  apply (delete_unknown_itemid_removes_nothing Demo.store Sample.delete_unknown_itemid "i9");
    vm_compute; reflexivity.
Defined.

Lemma create_then_delete_restores_items_witness :
  items Demo.store !! "i3" = None /\
  instance_count Demo.store "i3" = 0 /\
  snd (Chain.run item_create_post_validators Demo.create_valid) = [] /\
  params_id Sample.delete_created = "i3" /\
  body Sample.delete_created !! "itemid" = Some "i3" /\
  body Sample.delete_created !! "security_code" = Some "123" /\
  let created :=
    fst (run_handler
           (item_create_post Demo.base64 Demo.secure_url Demo.item_url "i3"
              Demo.create_valid) Demo.store) in
  let r := run_handler (item_delete_post Sample.delete_created) created in
  is_Some (items created !! "i3") /\
  items (fst r) = items Demo.store /\
  snd r = [ Redirect "/catalog/items" ] /\
  (file Demo.create_valid = None -> fst r = Demo.store).
Proof.
  split; [vm_compute; reflexivity|]. split; [vm_compute; reflexivity|].
  split; [vm_compute; reflexivity|]. split; [reflexivity|].
  split; [vm_compute; reflexivity|]. split; [vm_compute; reflexivity|].
  apply (create_then_delete_restores_items Demo.base64 Demo.secure_url Demo.item_url
           "i3" Demo.store Demo.create_valid Sample.delete_created);
    first [reflexivity | vm_compute; reflexivity].
Defined.

Lemma accepted_update_without_file_idempotent_witness :
  snd (Chain.run item_update_post_validators Demo.update_valid) = [] /\
  body Demo.update_valid !! "security_code" = Some "123" /\
  file Demo.update_valid = None /\
  let r := run_handler
             (item_update_post Demo.base64 Demo.secure_url Demo.item_url Demo.update_valid)
             Demo.store in
  run_handler
    (item_update_post Demo.base64 Demo.secure_url Demo.item_url Demo.update_valid)
    (fst r) = r.
Proof.
  split; [vm_compute; reflexivity|]. split; [vm_compute; reflexivity|].
  split; [reflexivity|].
  apply (accepted_update_without_file_idempotent
           Demo.base64 Demo.secure_url Demo.item_url Demo.store Demo.update_valid);
    first [reflexivity | vm_compute; reflexivity].
Defined.

Lemma update_invalid_fields_right_code_witness :
  snd (Chain.run item_update_post_validators Sample.update_invalid_fields) <> [] /\
  body Sample.update_invalid_fields !! "security_code" = Some "123" /\
  run_handler
    (item_update_post Demo.base64 Demo.secure_url Demo.item_url
       Sample.update_invalid_fields) Demo.store
  = (Demo.store,
     [ Render "item_form"
         [ ("title", LString "Update Item");
           ("item", LPopulatedItem
                      (ItemModel.populate_slot Demo.store <$>
                         items Demo.store !! params_id Sample.update_invalid_fields));
           ("slots", LSlots (merge_sort SlotModel.name_le (slots Demo.store)));
           ("errors",
            LErrors (snd (Chain.run item_update_post_validators
                            Sample.update_invalid_fields)));
           ("code", LField (Some "123"));
           ("form_type", LString "update");
           ("error", LString "") ] ]).
Proof.
  split; [vm_compute; discriminate|]. split; [vm_compute; reflexivity|].
  apply (update_invalid_fields_right_code Demo.base64 Demo.secure_url Demo.item_url
           Demo.store Sample.update_invalid_fields).
  - vm_compute. discriminate.
  - vm_compute. reflexivity.
Defined.

Lemma create_raises_item_count_witness :
  items Demo.store !! "i3" = None /\
  snd (Chain.run item_create_post_validators Demo.create_valid) = [] /\
  page_number (index Sample.sellers Demo.store) "item_count" = Some 2 /\
  let w' := fst (run_handler
                   (item_create_post Demo.base64 Demo.secure_url Demo.item_url "i3"
                      Demo.create_valid) Demo.store) in
  page_number (index Sample.sellers w') "item_count" = Some 3 /\
  (forall key, key <> "item_count" ->
     page_number (index Sample.sellers w') key
     = page_number (index Sample.sellers Demo.store) key).
Proof.
  split; [vm_compute; reflexivity|]. split; [vm_compute; reflexivity|].
  split; [vm_compute; reflexivity|].
  apply (create_raises_item_count Demo.base64 Demo.secure_url Demo.item_url
           Sample.sellers "i3" Demo.store Demo.create_valid 2);
    vm_compute; reflexivity.
Defined.

Lemma delete_lowers_item_count_witness :
  instance_count Demo.store (params_id Demo.delete_sword) = 0 /\
  body Demo.delete_sword !! "security_code" = Some "123" /\
  body Demo.delete_sword !! "itemid" = Some "i1" /\
  items Demo.store !! "i1" = Some Demo.sword /\
  page_number (index Sample.sellers Demo.store) "item_count" = Some 2 /\
  let w' := fst (run_handler (item_delete_post Demo.delete_sword) Demo.store) in
  0 < 2 /\ page_number (index Sample.sellers w') "item_count" = Some (2 - 1).
Proof.
  split; [vm_compute; reflexivity|]. split; [vm_compute; reflexivity|].
  split; [vm_compute; reflexivity|]. split; [vm_compute; reflexivity|].
  split; [vm_compute; reflexivity|].
  apply (delete_lowers_item_count Sample.sellers Demo.store Demo.delete_sword
           "i1" Demo.sword 2);
    vm_compute; reflexivity.
Defined.

Lemma deleted_item_is_not_found_witness :
  instance_count Demo.store (params_id Demo.delete_sword) = 0 /\
  body Demo.delete_sword !! "security_code" = Some "123" /\
  body Demo.delete_sword !! "itemid" = Some "i1" /\
  params_id Sample.detail_sword = "i1" /\
  let w' := fst (run_handler (item_delete_post Demo.delete_sword) Demo.store) in
  item_detail Sample.sellers w' Sample.detail_sword
  = NextError {| err_message := "Item not found"; err_status := 404 |} /\
  item_update_get w' Sample.detail_sword
  = NextError {| err_message := "Item not found"; err_status := 404 |} /\
  head (snd (run_handler (item_delete_get Sample.detail_sword) w'))
  = Some (Redirect "/catalog/items").
Proof.
  split; [vm_compute; reflexivity|]. split; [vm_compute; reflexivity|].
  split; [vm_compute; reflexivity|]. split; [reflexivity|].
  apply (deleted_item_is_not_found Sample.sellers Demo.store Demo.delete_sword
           Sample.detail_sword "i1");
    first [reflexivity | vm_compute; reflexivity].
Defined.

Lemma created_item_is_shown_witness :
  snd (Chain.run item_create_post_validators Demo.create_valid) = [] /\
  params_id Sample.detail_created = "i3" /\
  let w' := fst (run_handler
                   (item_create_post Demo.base64 Demo.secure_url Demo.item_url "i3"
                      Demo.create_valid) Demo.store) in
  exists img shown,
    item_detail Sample.sellers w' Sample.detail_created
    = Page "item_detail"
        [ ("title", PString "Item Detail");
          ("item", PPopulatedItem
                     (ItemModel.populate_slot Demo.store
                        (candidate "i3" Demo.create_valid img)));
          ("itemInstances", PSoldInstances shown) ] /\
    (file Demo.create_valid = None -> img = Some "#").
Proof.
  split; [vm_compute; reflexivity|]. split; [reflexivity|].
  apply (created_item_is_shown Demo.base64 Demo.secure_url Demo.item_url
           Sample.sellers "i3" Demo.store Demo.create_valid Sample.detail_created);
    first [reflexivity | vm_compute; reflexivity].
Defined.
